(* ===== verification/_CoqProject ===== *)
-Q . S2P
Prelude.v
Target.v
CellCodec.v
CString.v
Buffer.v
Terminal.v
Scroll.v
Writer.v
Screen.v
Api.v
Interface.v
Behaviour.v
Kernel.v
