(* ===== verification/Prelude.v ===== *)
(** * A verified model of the mb_os VGA text-mode terminal

    The program is src/kernel.c, a freestanding i386 kernel that prints
    to the VGA text-mode frame buffer at physical address [0xB8000].  It
    has four parts:
    - a cell codec ([enum vga_color], [vga_entry_color], [vga_entry]) that
      packs a character and a colour byte into a 16-bit cell;
    - a terminal: the globals [terminal_row], [terminal_column],
      [terminal_color] and [terminal_buffer]; [terminal_initialize] and
      [terminal_blank], which fill the screen; [terminal_setcolor]; and
      [terminal_putentryat], which stores one cell;
    - a writer: [terminal_putchar] advances the cursor, wraps at the last
      column and, below the last row, calls [terminal_scroll_newline].
      That function moves rows up with the buffer helpers
      [terminal_blank_line] and [terminal_line_copy].  [terminal_write]
      and [terminal_writestring] (with [strlen]) call [terminal_putchar]
      once per character;
    - the entry point [kernel_main], which initialises the terminal and
      writes two messages in loops, with a busy-wait [time_delay] after
      each one.

    ** Files, in dependency order

    - [Prelude] (this file) holds the shared machinery:
      - the C conversions to [uint8_t], [uint16_t], [size_t] and the
        signed [char] of the target, with the wrap-around written out;
      - the counting loop [c_for] and its loop rules ([c_for_inv],
        [c_for_preserve], [c_for_count]);
      - memory as a [gmap] from byte addresses to 16-bit cells, with
        [load], [store] and [elem p i = p + 2*i] (C's [p[i]] on
        [uint16_t *]);
      - the frame predicate [unchanged_outside];
      - the hint databases [vga], [vga_conv], [vga_mem] and the tactics
        [simpl_cmp] and [decide_by_eval].
    - [Target] (Module [Target]): the [#error] target checks (lines
      5-13) as the diagnostics a target produces.
    - [CellCodec] (Module [CellCodec]): [vga_color], [vga_entry_color] and
      [vga_entry] (kernel.c 16-43), the decoding the display adapter does,
      and their round trips.
    - [CString] (Module [CString]): [strlen] (45-51) as a fuelled loop
      over the caller's array, and a reference [first_nul].
    - [Buffer]:
      - the class [Geometry] holds [VGA_WIDTH] and [VGA_HEIGHT] (53-54)
        with the bounds the proofs use; [vga_80x25] is the program's
        instance;
      - Module [Buffer] holds [terminal_blank_line] (86-92) and
        [terminal_line_copy] (94-102).
    - [Terminal] (Module [Terminal]):
      - the record [term] gathers the four globals and the memory;
      - [terminal_initialize] (61-73), [terminal_blank] (75-84),
        [terminal_setcolor] (104-107) and [terminal_putentryat]
        (109-113) are functions on it;
      - [term_inv] is the invariant: the cursor is on the screen, the
        colour is a byte, the buffer is [0xB8000] and every cell is a
        16-bit value.  It is decidable.
    - [Scroll] (Module [Scroll]): [terminal_scroll_newline] (115-121).
    - [Writer] (Module [Writer]):
      - [next_row] is the row step that both branches of
        [terminal_putchar] share;
      - [terminal_putchar] (123-143);
      - [terminal_write] (145-149) and [terminal_writestring] (151-154).
    - [Screen] (Module [Screen]): an abstract screen (a grid of rows, a
      cursor and a colour) and its line discipline [put_char].  The
      abstraction [abs] reads the frame buffer.
    - [Behaviour] (Module [Behaviour]): consequences of the above for
      sequences of characters, and two concrete scenarios on 80x25.
    - [Api] (Module [Api]): the public interface as a step relation
      [api_step], and [reachable] as the states that follow
      initialisation.
    - [Interface] (Module [Interface]): the interface as an abstract
      machine on [screen] ([screen_exec], [screen_run]), and runs of
      calls on the memory model ([api_run]).
    - [Kernel] (Module [Kernel]): [time_delay] (156-162) and
      [kernel_main] (164-177).

    All operations are written inside [Section WithGeometry] over
    [Context {geom : Geometry}], so every theorem holds for any screen
    size that satisfies the class.  The concrete scenarios use
    [vga_80x25].

    ** What the theorems show

    - Safety and invariants:
      - [terminal_initialize] establishes [term_inv] and every call
        preserves it;
      - by rule induction, every reachable state satisfies it;
      - no call writes outside the [W*H] cells at [0xB8000].
    - Functional behaviour of [terminal_putchar], branch by branch: a
      character in line, at the end of the line, a newline, and the
      scroll.  Also the behaviour of [terminal_scroll_newline],
      [terminal_initialize], [terminal_blank_line], and of
      [terminal_line_copy] as a correct copy when the destination lies
      below the source or does not overlap it.
    - Refinement: with [abs], one [terminal_putchar] is one step of the
      line discipline [put_char], and [terminal_writestring] is its fold
      over the string.
    - Refinement of the whole interface: after [terminal_initialize],
      every sequence of calls, read through [abs], is the abstract
      machine's run from the blank screen, and both are undefined
      together.  The only undefined calls are those that read past the
      caller's array ([call_ub]).
    - Round trips of the cell codec, and [strlen] against [first_nul].
      The attribute type: the [uint8_t] bytes are exactly the
      encodings of the 16 x 16 colour pairs, one pair per byte.
    - Liveness of the scroll: from every valid state, the
      [VGA_HEIGHT - terminal_row]-th newline scrolls, and the newlines
      before it write no memory.
    - [terminal_write] is the fold of [terminal_putchar]; a [size] beyond
      the array is a read past its end.
    - [kernel_main] completes from any state.  [time_delay]'s bound is
      computed modulo [2^32].

    The modelling brought up these facts about the code:
    - the scroll never blanks the last row, so old text stays visible
      (after [kernel_main], from any prior state, the last row reads
      "Wrapping the screenorld!");
    - the [terminal_blank_line] call in the scroll loop is dead, since the
      copy that follows overwrites every cell it writes;
    - [time_delay]'s bound wraps: the full delay is obtained exactly
      for arguments below 42950.

    ** Bounds and fuel

    - [c_for a b] runs [b - a] iterations of a counter that never wraps:
      the bounds used are [VGA_WIDTH], [VGA_HEIGHT] and
      [(s * 100000) mod 2^32].  [Geometry] requires [W * H < 2^24], so
      [y * VGA_WIDTH + x] is below [2^32] and its [size_t] conversion is
      the identity.
    - [terminal_line_copy] takes fuel [len]: the [while] loop makes
      exactly [len] iterations, and [line_copy_loop_fuel] shows that
      more fuel gives the same result.
    - [strlen] takes fuel [length + 1].  The loop ends at a NUL or
      leaves the array within that many steps, so the fuel never runs
      out first.
    - [terminal_write]'s [for] loop takes [size] iterations.  Its
      termination is structural.

    ** Not modelled

    - The [#include] lines (1-3) only bring the fixed-width types,
      which the model writes as [Z] with explicit conversions.  The
      [#error] guards are modelled as diagnostics, without a
      preprocessor.
    - [time_delay] is modelled as its iteration count: the loop body is
      empty and it has no effect on the screen.
    - A string argument is an array separate from the frame buffer.  A
      read past its end (undefined behaviour) is the [None] outcome.
    - Memory never written reads as 0.  No theorem depends on the
      initial contents outside the cells it states. *)

From Stdlib Require Import ZArith Lia.
From stdpp Require Import base gmap list.

Declare Scope vga_scope.
Delimit Scope vga_scope with vga.
Open Scope Z_scope.

Create HintDb vga discriminated.
Create Rewrite HintDb vga_conv.
Create Rewrite HintDb vga_mem.

(** ** C integer conversions of the i386 target

    [char] is 8 bits, [uint8_t] 8 bits, [uint16_t] 16 bits and [size_t]
    32 bits.  A conversion to an unsigned type of width [w] is reduction
    modulo [2^w] (C11 6.3.1.3). *)

Definition uint8 (z : Z) : Z := z mod 2 ^ 8.
Definition uint16 (z : Z) : Z := z mod 2 ^ 16.
Definition size_t_of (z : Z) : Z := z mod 2 ^ 32.

(** [char] is signed on the i386 target: a conversion to [char] keeps
    the residue modulo [2^8] in [[-2^7, 2^7)] (implementation-defined in
    C11 6.3.1.3, two's complement for GCC). *)
Definition schar (z : Z) : Z := (z + 2 ^ 7) mod 2 ^ 8 - 2 ^ 7.

Lemma uint8_range z : 0 <= uint8 z < 2 ^ 8.
Proof. apply Z.mod_pos_bound; lia. Qed.

Lemma uint16_range z : 0 <= uint16 z < 2 ^ 16.
Proof. apply Z.mod_pos_bound; lia. Qed.

Lemma size_t_range z : 0 <= size_t_of z < 2 ^ 32.
Proof. apply Z.mod_pos_bound; lia. Qed.

Lemma uint8_small z : 0 <= z < 2 ^ 8 -> uint8 z = z.
Proof. apply Z.mod_small. Qed.

Lemma uint16_small z : 0 <= z < 2 ^ 16 -> uint16 z = z.
Proof. apply Z.mod_small. Qed.

Lemma size_t_small z : 0 <= z < 2 ^ 32 -> size_t_of z = z.
Proof. apply Z.mod_small. Qed.

#[export] Hint Resolve uint8_range uint16_range size_t_range : vga.
#[export] Hint Rewrite uint8_small uint16_small size_t_small using lia : vga_conv.

(** Remove the conversions whose argument is provably in range. *)
Ltac c_conv := autorewrite with vga_conv in *.

(** Evaluate the boolean comparisons [<?], [=?] of the goal whose
    outcome follows from the hypotheses by [lia]. *)
Ltac simpl_cmp :=
  repeat first
    [ rewrite (proj2 (Z.ltb_lt _ _)) by lia
    | rewrite (proj2 (Z.ltb_ge _ _)) by lia
    | rewrite (proj2 (Z.eqb_eq _ _)) by lia
    | rewrite (proj2 (Z.eqb_neq _ _)) by lia ].

(** Prove a decidable proposition about a concrete state by evaluating
    its decision procedure. *)
Ltac decide_by_eval := apply (bool_decide_unpack _); vm_compute; reflexivity.

(** ** Counting loops

    [for (i = lo; i < hi; i++) body] is [c_for lo hi body]: the body runs
    for [i = lo, lo+1, ..., hi-1] and threads the state [s].  The loop
    counter never wraps in this program (every bound is below 2^31). *)

Fixpoint for_range {St : Type} (n : nat) (i : Z) (body : Z -> St -> St) (s : St) : St :=
  match n with
  | O => s
  | S n' => for_range n' (i + 1) body (body i s)
  end.

Definition c_for {St : Type} (lo hi : Z) (body : Z -> St -> St) (s : St) : St :=
  for_range (Z.to_nat (hi - lo)) lo body s.

Section Loops.
Context {St : Type}.
Implicit Types (body : Z -> St -> St) (s : St).

Lemma for_range_succ_r n i body s :
  for_range (S n) i body s = body (i + Z.of_nat n) (for_range n i body s).
Proof.
  revert i s. induction n as [|n IH]; intros i s.
  - simpl. f_equal. lia.
  - change (for_range (S (S n)) i body s) with (for_range (S n) (i + 1) body (body i s)).
    change (for_range (S n) i body s) with (for_range n (i + 1) body (body i s)).
    rewrite IH. f_equal. lia.
Qed.

(** The loop rule: an invariant indexed by the counter. *)
Lemma for_range_inv (P : Z -> St -> Prop) n i body s :
  P i s ->
  (forall k s', i <= k < i + Z.of_nat n -> P k s' -> P (k + 1) (body k s')) ->
  P (i + Z.of_nat n) (for_range n i body s).
Proof.
  intros H0 Hstep. induction n as [|n IH].
  - simpl. replace (i + Z.of_nat 0) with i by lia. exact H0.
  - rewrite for_range_succ_r.
    replace (i + Z.of_nat (S n)) with (i + Z.of_nat n + 1) by lia.
    apply Hstep; [lia|]. apply IH. intros k s' Hk. apply Hstep. lia.
Qed.

Lemma c_for_inv (P : Z -> St -> Prop) lo hi body s :
  lo <= hi ->
  P lo s ->
  (forall k s', lo <= k < hi -> P k s' -> P (k + 1) (body k s')) ->
  P hi (c_for lo hi body s).
Proof.
  intros Hle H0 Hstep. unfold c_for.
  replace hi with (lo + Z.of_nat (Z.to_nat (hi - lo))) at 1 by lia.
  apply for_range_inv; [exact H0|].
  intros k s' Hk. apply Hstep. lia.
Qed.

Lemma c_for_empty lo hi body s : hi <= lo -> c_for lo hi body s = s.
Proof. intros H. unfold c_for. replace (Z.to_nat (hi - lo)) with O by lia. done. Qed.

(** The last iteration of a non-empty loop. *)
Lemma c_for_last lo hi body s :
  lo < hi -> c_for lo hi body s = body (hi - 1) (c_for lo (hi - 1) body s).
Proof.
  intros H. unfold c_for.
  replace (Z.to_nat (hi - lo)) with (S (Z.to_nat (hi - 1 - lo))) by lia.
  rewrite for_range_succ_r. f_equal. lia.
Qed.

Lemma c_for_ext lo hi body1 body2 s :
  (forall k s', lo <= k < hi -> body1 k s' = body2 k s') ->
  c_for lo hi body1 s = c_for lo hi body2 s.
Proof.
  intros Hext. unfold c_for.
  assert (Hgen : forall n i s', i + Z.of_nat n <= hi -> lo <= i ->
    for_range n i body1 s' = for_range n i body2 s').
  { induction n as [|n IH]; intros i s' Hn Hi; simpl; [done|].
    rewrite Hext by lia. apply IH; lia. }
  destruct (Z_le_gt_dec lo hi); [apply Hgen; lia|].
  replace (Z.to_nat (hi - lo)) with O by lia. done.
Qed.

(** A reflexive and transitive relation that every iteration
    establishes between its input and output state holds across the
    whole loop. *)
Lemma c_for_preserve (R : relation St) `{!PreOrder R} lo hi body s :
  (forall k s', lo <= k < hi -> R s' (body k s')) ->
  R s (c_for lo hi body s).
Proof.
  intros Hstep. destruct (Z_le_gt_dec lo hi) as [Hle|Hgt].
  - apply (c_for_inv (fun _ s' => R s s')); [done|reflexivity|].
    intros k s' Hk Hs'. etrans; [exact Hs'|]. apply Hstep; lia.
  - rewrite c_for_empty by lia. reflexivity.
Qed.
End Loops.

(** A loop whose body only counts its iterations runs [hi - lo] times
    (none when [hi <= lo]). *)
Lemma c_for_count lo hi n0 :
  c_for lo hi (fun _ n => n + 1) n0 = n0 + Z.max 0 (hi - lo).
Proof.
  destruct (Z_le_gt_dec lo hi) as [Hle|Hgt].
  - apply (c_for_inv (fun k n => n = n0 + Z.max 0 (k - lo))); [lia|lia|].
    intros k n Hk ->. lia.
  - rewrite c_for_empty by lia. lia.
Qed.

(** ** Memory

    The address space is a finite map from byte addresses to the 16-bit
    value stored at that (2-aligned) address; every access of the
    program is a [uint16_t] access at an even address, so a cell never
    overlaps another.  An address that was never written reads as 0. *)

Abbreviation mem := (gmap Z Z).

Definition load (m : mem) (a : Z) : Z := default 0 (m !! a).
Definition store (m : mem) (a v : Z) : mem := <[a := v]> m.

(** [&p[i]] for a [uint16_t *p]: pointer arithmetic scaled by
    [sizeof(uint16_t) = 2]. *)
Definition elem (p i : Z) : Z := p + 2 * i.

Notation "m ⟨ a ⟩" := (load m a) (format "m ⟨ a ⟩") : vga_scope.
Notation "m ⟨ a := v ⟩" := (store m a v) (format "m ⟨ a  :=  v ⟩") : vga_scope.
Open Scope vga_scope.

Lemma load_store_eq m a v : m⟨a := v⟩⟨a⟩ = v.
Proof. unfold load, store. by rewrite lookup_insert_eq. Qed.

Lemma lookup_store_ne m a b v : a <> b -> m⟨a := v⟩ !! b = m !! b.
Proof. intros H. unfold store. by rewrite lookup_insert_ne. Qed.

Lemma load_store_ne m a b v : a <> b -> m⟨a := v⟩⟨b⟩ = m⟨b⟩.
Proof. intros H. unfold load. by rewrite lookup_store_ne. Qed.

Lemma lookup_load m a v : m !! a = Some v -> m⟨a⟩ = v.
Proof. intros H. unfold load. by rewrite H. Qed.

Lemma lookup_store_eq m a v : m⟨a := v⟩ !! a = Some v.
Proof. unfold store. by rewrite lookup_insert_eq. Qed.

Lemma elem_inj p i j : elem p i = elem p j -> i = j.
Proof. unfold elem. lia. Qed.

Lemma elem_elem p i j : elem (elem p i) j = elem p (i + j).
Proof. unfold elem. lia. Qed.

#[export] Hint Rewrite load_store_eq : vga_mem.

(** [m'] differs from [m] only at addresses satisfying [P]. *)
Definition unchanged_outside (P : Z -> Prop) (m m' : mem) : Prop :=
  forall a, ~ P a -> m' !! a = m !! a.

#[export] Instance unchanged_outside_preorder P : PreOrder (unchanged_outside P).
Proof.
  split.
  - intros m a _. done.
  - intros m1 m2 m3 H12 H23 a Ha. rewrite H23, H12; done.
Qed.

Lemma unchanged_outside_store (P : Z -> Prop) m a v :
  P a -> unchanged_outside P m m⟨a := v⟩.
Proof.
  intros Ha b Hb. apply lookup_store_ne. intros ->. contradiction.
Qed.

Lemma unchanged_outside_weaken (P Q : Z -> Prop) m m' :
  (forall a, P a -> Q a) -> unchanged_outside P m m' -> unchanged_outside Q m m'.
Proof. intros HPQ H a Ha. apply H. intros HP. apply Ha, HPQ, HP. Qed.

Lemma unchanged_outside_load (P : Z -> Prop) m m' a :
  unchanged_outside P m m' -> ~ P a -> m'⟨a⟩ = m⟨a⟩.
Proof. intros H Ha. unfold load. by rewrite H. Qed.

#[export] Hint Resolve unchanged_outside_store : vga.

(** ** Bit-level helpers shared by the cell encoders *)

(** An OR of a value below [2^n] with a value shifted left by [n] bits
    is their sum: the bit ranges are disjoint. *)
Lemma lor_shiftl_disjoint a b n :
  0 <= n -> 0 <= a < 2 ^ n -> 0 <= b ->
  Z.lor a (Z.shiftl b n) = a + b * 2 ^ n.
Proof.
  intros Hn Ha Hb.
  assert (Hdisj : Z.land a (Z.shiftl b n) = 0).
  { apply Z.bits_inj'. intros i Hi.
    rewrite Z.land_spec, Z.bits_0, Z.shiftl_spec by lia.
    destruct (Z.lt_ge_cases i n) as [Hlt|Hge].
    - rewrite (Z.testbit_neg_r b (i - n)) by lia. apply andb_false_r.
    - rewrite <- (Z.mod_small a (2 ^ n)) by lia.
      rewrite Z.mod_pow2_bits_high by lia. done. }
  rewrite <- Z.lxor_lor, <- Z.add_nocarry_lxor by exact Hdisj.
  rewrite Z.shiftl_mul_pow2 by lia. done.
Qed.

(** Reading the low and the high part back out of [a + b * 2^n]. *)
Lemma low_bits_of_sum a b n :
  0 <= n -> 0 <= a < 2 ^ n -> Z.land (a + b * 2 ^ n) (Z.ones n) = a.
Proof.
  intros Hn Ha. rewrite Z.land_ones by lia.
  rewrite Z.mod_add by lia. by apply Z.mod_small.
Qed.

Lemma high_bits_of_sum a b n :
  0 <= n -> 0 <= a < 2 ^ n -> Z.shiftr (a + b * 2 ^ n) n = b.
Proof.
  intros Hn Ha. rewrite Z.shiftr_div_pow2 by lia.
  rewrite Z.div_add by lia. rewrite Z.div_small by lia. lia.
Qed.
