(* ===== verification/Target.v ===== *)
(** * The target checks of kernel.c

    Lines 5-13 of src/kernel.c are two preprocessor guards: the file
    refuses a compiler that defines [__linux__] (a hosted compiler
    rather than a cross-compiler) and one that does not define
    [__i386__].  A target is modelled by the two predefined macros the
    guards test; [target_checks] lists the [#error] diagnostics
    emitted, in source order.  Both guards are evaluated, because
    [#error] does not stop preprocessing.  The translation unit is
    translated only when the list is empty (C11 6.10.5).

    The rest of the development assumes what these guards ensure: the
    i386 data model, with an 8-bit signed [char] and a 32-bit
    [size_t] (Prelude). *)

From Stdlib Require Import String List.
Import ListNotations.
Open Scope string_scope.

Module Target.

(** The predefined macros the guards test. *)
Record target := mk_target {
  defines___linux__ : bool;
  defines___i386__ : bool
}.

Definition MSG_NOT_CROSS : string :=
  "You are not using a cross-compiler, you will most certainly run into trouble".
Definition MSG_NOT_IX86 : string :=
  "This tutorial needs to be compiled with a ix86-elf compiler".

(** [#if defined(__linux__) #error ... #endif] then
    [#if !defined(__i386__) #error ... #endif]. *)
Definition target_checks (t : target) : list string :=
  (if defines___linux__ t then [MSG_NOT_CROSS] else []) ++
  (if negb (defines___i386__ t) then [MSG_NOT_IX86] else []).

End Target.
