(* ===== verification/CellCodec.v ===== *)
(** * Cell codec: the colour enumeration and the two encoders

    Models [enum vga_color], [vga_entry_color] and [vga_entry] of
    src/kernel.c (lines 15-43).  Both encoders are pure.  The decoders
    [cell_char], [cell_attr], [attr_fg] and [attr_bg] are not in the
    source: they state how the VGA hardware reads a cell, and the round
    trip theorems show that the encoders lose nothing. *)

From Stdlib Require Import ZArith Lia.
From stdpp Require Import base decidable tactics.
From S2P Require Import Prelude.
Open Scope Z_scope.

Module CellCodec.

(** [enum vga_color]: the 16 hardware colours. *)
Inductive vga_color : Type :=
| VGA_COLOR_BLACK | VGA_COLOR_BLUE | VGA_COLOR_GREEN | VGA_COLOR_CYAN
| VGA_COLOR_RED | VGA_COLOR_MAGENTA | VGA_COLOR_BROWN | VGA_COLOR_LIGHT_GREY
| VGA_COLOR_DARK_GREY | VGA_COLOR_LIGHT_BLUE | VGA_COLOR_LIGHT_GREEN
| VGA_COLOR_LIGHT_CYAN | VGA_COLOR_LIGHT_RED | VGA_COLOR_LIGHT_MAGENTA
| VGA_COLOR_LIGHT_BROWN | VGA_COLOR_WHITE.

#[export] Instance vga_color_eq_dec : EqDecision vga_color.
Proof. solve_decision. Defined.

(** The value of each enumerator. *)
Definition vga_color_value (c : vga_color) : Z :=
  match c with
  | VGA_COLOR_BLACK => 0 | VGA_COLOR_BLUE => 1 | VGA_COLOR_GREEN => 2
  | VGA_COLOR_CYAN => 3 | VGA_COLOR_RED => 4 | VGA_COLOR_MAGENTA => 5
  | VGA_COLOR_BROWN => 6 | VGA_COLOR_LIGHT_GREY => 7
  | VGA_COLOR_DARK_GREY => 8 | VGA_COLOR_LIGHT_BLUE => 9
  | VGA_COLOR_LIGHT_GREEN => 10 | VGA_COLOR_LIGHT_CYAN => 11
  | VGA_COLOR_LIGHT_RED => 12 | VGA_COLOR_LIGHT_MAGENTA => 13
  | VGA_COLOR_LIGHT_BROWN => 14 | VGA_COLOR_WHITE => 15
  end.

(** The inverse map, total on [0, 16). *)
Definition vga_color_of_Z (z : Z) : option vga_color :=
  match z with
  | 0 => Some VGA_COLOR_BLACK | 1 => Some VGA_COLOR_BLUE
  | 2 => Some VGA_COLOR_GREEN | 3 => Some VGA_COLOR_CYAN
  | 4 => Some VGA_COLOR_RED | 5 => Some VGA_COLOR_MAGENTA
  | 6 => Some VGA_COLOR_BROWN | 7 => Some VGA_COLOR_LIGHT_GREY
  | 8 => Some VGA_COLOR_DARK_GREY | 9 => Some VGA_COLOR_LIGHT_BLUE
  | 10 => Some VGA_COLOR_LIGHT_GREEN | 11 => Some VGA_COLOR_LIGHT_CYAN
  | 12 => Some VGA_COLOR_LIGHT_RED | 13 => Some VGA_COLOR_LIGHT_MAGENTA
  | 14 => Some VGA_COLOR_LIGHT_BROWN | 15 => Some VGA_COLOR_WHITE
  | _ => None
  end.

(** [vga_entry_color(fg, bg)]: [fg | bg << 4], computed in [int] and
    converted to the [uint8_t] result. *)
Definition vga_entry_color (fg bg : vga_color) : Z :=
  uint8 (Z.lor (vga_color_value fg) (Z.shiftl (vga_color_value bg) 4)).

(** [vga_entry(uc, color)]: the arguments are converted to the parameter
    types [unsigned char] and [uint8_t], both operands are cast to
    [uint16_t] (and promoted to [int]), and the [int] result is
    converted to the [uint16_t] return type. *)
Definition vga_entry (uc color : Z) : Z :=
  let uc := uint8 uc in
  let color := uint8 color in
  uint16 (Z.lor (uint16 uc) (Z.shiftl (uint16 color) 8)).

(** How the display adapter reads a cell and an attribute byte. *)
Definition cell_char (cell : Z) : Z := Z.land cell (Z.ones 8).
Definition cell_attr (cell : Z) : Z := Z.shiftr cell 8.
Definition attr_fg (attr : Z) : Z := Z.land attr (Z.ones 4).
Definition attr_bg (attr : Z) : Z := Z.shiftr attr 4.

(** A cell is any 16-bit value. *)
Definition valid_cell (cell : Z) : Prop := 0 <= cell < 2 ^ 16.

(** ** Lemmas *)

Lemma vga_color_value_range c : 0 <= vga_color_value c < 16.
Proof. destruct c; simpl; lia. Qed.

#[export] Hint Resolve vga_color_value_range : vga.

(** The arithmetic form of the attribute byte. *)
Lemma vga_entry_color_spec fg bg :
  vga_entry_color fg bg = vga_color_value fg + vga_color_value bg * 16.
Proof.
  pose proof (vga_color_value_range fg). pose proof (vga_color_value_range bg).
  unfold vga_entry_color.
  rewrite (lor_shiftl_disjoint _ _ 4) by lia. change (2 ^ 4) with 16.
  apply uint8_small. lia.
Qed.

(** The arithmetic form of a cell: character in the low byte,
    attribute in the high byte. *)
Lemma vga_entry_spec uc color :
  vga_entry uc color = uint8 uc + uint8 color * 256.
Proof.
  pose proof (uint8_range uc). pose proof (uint8_range color).
  unfold vga_entry. rewrite (uint16_small (uint8 uc)), (uint16_small (uint8 color)) by lia.
  rewrite (lor_shiftl_disjoint _ _ 8) by lia. change (2 ^ 8) with 256.
  apply uint16_small. lia.
Qed.

Lemma vga_entry_valid uc color : valid_cell (vga_entry uc color).
Proof. unfold valid_cell. rewrite vga_entry_spec. pose proof (uint8_range uc). pose proof (uint8_range color). lia. Qed.

#[export] Hint Resolve vga_entry_valid : vga.

Lemma vga_color_of_Z_value c : vga_color_of_Z (vga_color_value c) = Some c.
Proof. by destruct c. Qed.

(** ** Round trips *)

(** The cell encoder is lossless: the display adapter reads back,
    from the low byte of [vga_entry uc color], the character [uc] as an
    [unsigned char] and, from the high byte, the attribute [color] as a
    [uint8_t]. *)
Lemma vga_entry_decode uc color :
  cell_char (vga_entry uc color) = uint8 uc /\
  cell_attr (vga_entry uc color) = uint8 color.
Proof.
  pose proof (uint8_range uc). rewrite vga_entry_spec. change 256 with (2 ^ 8).
  unfold cell_char, cell_attr. split.
  - apply low_bits_of_sum; lia.
  - apply high_bits_of_sum; lia.
Qed.

(** C29: the cell encoder is lossless: the display adapter reads back,
    from the low byte of [vga_entry uc color], the character [uc] as an
    [unsigned char] and, from the high byte, the attribute [color] as a
    [uint8_t]. *)
Theorem vga_entry_roundtrip uc color :
  cell_char (vga_entry uc color) = uint8 uc /\
  cell_attr (vga_entry uc color) = uint8 color.
Proof. apply vga_entry_decode. Qed.

(** C30: the attribute encoder is lossless: the foreground colour is read
    back from the low nibble and the background colour from the high
    nibble of [vga_entry_color fg bg]. *)
Theorem vga_entry_color_roundtrip fg bg :
  vga_color_of_Z (attr_fg (vga_entry_color fg bg)) = Some fg /\
  vga_color_of_Z (attr_bg (vga_entry_color fg bg)) = Some bg.
Proof.
  pose proof (vga_color_value_range fg).
  rewrite vga_entry_color_spec. change 16 with (2 ^ 4). unfold attr_fg, attr_bg.
  rewrite low_bits_of_sum, high_bits_of_sum by lia.
  split; apply vga_color_of_Z_value.
Qed.

(** ** The attribute type *)

(** Every value of [0, 16) is the value of a colour. *)
Lemma vga_color_of_Z_total z :
  0 <= z < 16 -> exists c, vga_color_of_Z z = Some c /\ vga_color_value c = z.
Proof.
  intros Hz.
  assert (z = 0 \/ z = 1 \/ z = 2 \/ z = 3 \/ z = 4 \/ z = 5 \/ z = 6 \/ z = 7 \/
          z = 8 \/ z = 9 \/ z = 10 \/ z = 11 \/ z = 12 \/ z = 13 \/ z = 14 \/ z = 15)
    as Hz' by lia.
  repeat destruct Hz' as [->|Hz']; try subst z; eexists; split; reflexivity.
Qed.

Lemma vga_color_value_inj c c' : vga_color_value c = vga_color_value c' -> c = c'.
Proof.
  intros Heq. pose proof (vga_color_of_Z_value c) as Hc.
  rewrite Heq, vga_color_of_Z_value in Hc. congruence.
Qed.

(** C31: the attribute type: the values of [vga_entry_color] are exactly
    the [uint8_t] bytes, and each byte encodes exactly one (foreground,
    background) pair, so the [uint8_t terminal_color] ranges over the
    16 x 16 colour pairs and nothing else. *)
Theorem vga_entry_color_bijective :
  (forall a, 0 <= a < 2 ^ 8 <-> exists fg bg, vga_entry_color fg bg = a) /\
  (forall fg bg fg' bg', vga_entry_color fg bg = vga_entry_color fg' bg' -> fg = fg' /\ bg = bg').
Proof.
  split.
  - intros a. split.
    + intros Ha. pose proof (Z.div_mod a 16 ltac:(lia)). pose proof (Z.mod_pos_bound a 16 ltac:(lia)).
      assert (0 <= a / 16 < 16) by (split; [apply Z.div_pos | apply Z.div_lt_upper_bound]; lia).
      destruct (vga_color_of_Z_total (a mod 16)) as (fg & _ & Hfg); [lia|].
      destruct (vga_color_of_Z_total (a / 16)) as (bg & _ & Hbg); [lia|].
      exists fg, bg. rewrite vga_entry_color_spec, Hfg, Hbg. lia.
    + intros (fg & bg & <-). apply uint8_range.
  - intros fg bg fg' bg'. rewrite !vga_entry_color_spec. intros Heq.
    pose proof (vga_color_value_range fg). pose proof (vga_color_value_range bg).
    pose proof (vga_color_value_range fg'). pose proof (vga_color_value_range bg').
    split; apply vga_color_value_inj; lia.
Qed.

(** Two cells are equal exactly when their characters and attributes are. *)
Lemma vga_entry_inj uc1 c1 uc2 c2 :
  vga_entry uc1 c1 = vga_entry uc2 c2 <-> uint8 uc1 = uint8 uc2 /\ uint8 c1 = uint8 c2.
Proof.
  split.
  - intros Heq. destruct (vga_entry_decode uc1 c1) as [A1 B1].
    destruct (vga_entry_decode uc2 c2) as [A2 B2]. rewrite Heq in A1, B1.
    split; congruence.
  - intros [H1 H2]. rewrite !vga_entry_spec, H1, H2. done.
Qed.

End CellCodec.
