(* ===== verification/CString.v ===== *)
(** * C strings: [strlen]

    Models [strlen] of src/kernel.c (lines 45-51).  A [const char *]
    argument is the character array it points into, as a list of [char]
    values; reading past the end of that array is undefined behaviour and
    is the [None] outcome.  The loop runs with fuel one more than the
    array length, which [strlen_loop_first_nul] shows is enough: the
    loop stops by its own test or by leaving the array before the fuel
    runs out.  The theorems relate the loop to a structural reference
    definition and characterise its result. *)

From Stdlib Require Import ZArith Lia.
From stdpp Require Import base list.
From S2P Require Import Prelude.
Open Scope Z_scope.

Module CString.

(** [while (str[len]) len++; return len;] with [fuel] iterations at
    most.  The counter is a [size_t]; an array is smaller than the
    32-bit address space, so [len++] does not wrap before [str[len]]
    leaves it. *)
Fixpoint strlen_loop (fuel : nat) (str : list Z) (len : Z) : option Z :=
  match fuel with
  | O => None
  | S fuel' =>
      match str !! Z.to_nat len with
      | None => None
      | Some c => if c =? 0 then Some len else strlen_loop fuel' str (len + 1)
      end
  end.

Definition strlen (str : list Z) : option Z := strlen_loop (S (length str)) str 0.

(** The reference: the index of the first NUL, if there is one. *)
Fixpoint first_nul (str : list Z) : option nat :=
  match str with
  | [] => None
  | c :: str' => if c =? 0 then Some O else S <$> first_nul str'
  end.

(** A C string literal ["..."]: its characters and the terminating NUL. *)
Definition c_string_literal (s : list Z) : list Z := s ++ [0].

(** ** Lemmas *)

Lemma first_nul_Some str n :
  first_nul str = Some n <->
  str !! n = Some 0 /\ (forall k c, (k < n)%nat -> str !! k = Some c -> c <> 0).
Proof.
  revert n. induction str as [|c str IH]; intros n; simpl.
  - split; [done|]. intros [H _]. done.
  - destruct (Z.eqb_spec c 0) as [->|Hc].
    + split.
      * intros [= <-]. split; [done|]. intros k c' Hk. lia.
      * intros [Hn Hall]. destruct n as [|n]; [done|].
        exfalso. apply (Hall O 0); [lia|done|done].
    + destruct (first_nul str) as [m|] eqn:Hm; simpl.
      * split.
        -- intros [= <-]. destruct (proj1 (IH m) eq_refl) as [Hm0 Hall].
           split; [done|]. intros [|k] c' Hk Hl; simpl in Hl; [congruence|].
           apply (Hall k); [lia|done].
        -- intros [Hn Hall]. destruct n as [|n]; simpl in Hn; [congruence|].
           f_equal. assert (Some m = Some n) as [=]; [|lia].
           apply IH. split; [done|].
           intros k c' Hk Hl. apply (Hall (S k)); [lia|done].
      * split; [done|]. intros [Hn Hall]. destruct n as [|n]; simpl in Hn; [congruence|].
        assert (None = Some n) as Hf; [|congruence].
        apply IH. split; [done|]. intros k c' Hk Hl. apply (Hall (S k)); [lia|done].
Qed.

(** The loop from [len], with enough fuel, is the reference shifted by
    [len]. *)
Lemma strlen_loop_first_nul fuel str len :
  0 <= len -> (length str - Z.to_nat len < fuel)%nat ->
  strlen_loop fuel str len =
  (fun n => len + Z.of_nat n) <$> first_nul (drop (Z.to_nat len) str).
Proof.
  revert len. induction fuel as [|fuel IH]; intros len Hlen Hfuel; [lia|].
  simpl. destruct (str !! Z.to_nat len) as [c|] eqn:Hc.
  - rewrite (drop_S str c (Z.to_nat len)) by done. simpl.
    destruct (c =? 0); simpl; [f_equal; lia|].
    rewrite IH by (try apply lookup_lt_Some in Hc; lia).
    replace (Z.to_nat (len + 1)) with (S (Z.to_nat len)) by lia.
    rewrite <- option_fmap_compose. apply option_fmap_ext. intros n. simpl. lia.
  - apply lookup_ge_None in Hc. rewrite drop_ge by done. done.
Qed.

Lemma first_nul_None str : first_nul str = None <-> 0 ∉ str.
Proof.
  induction str as [|c str IH]; simpl.
  - split; [intros _; apply not_elem_of_nil|done].
  - rewrite elem_of_cons. destruct (Z.eqb_spec c 0) as [->|Hc]; [split; [done|]; intuition|].
    destruct (first_nul str) as [n|]; simpl.
    + split; [done|]. intros H. exfalso.
      assert (Some n = None) by (apply IH; intros Hin; apply H; by right). congruence.
    + split; [|done]. intros _ [Hc0|Hin]; [congruence|]. by apply IH.
Qed.

(** [strlen] terminates within its fuel and computes the reference:
    the index of the first NUL of the array, and [None] (a read past
    the end, undefined behaviour) exactly when the array holds no NUL. *)
Lemma strlen_reference str : strlen str = Z.of_nat <$> first_nul str.
Proof.
  unfold strlen. rewrite strlen_loop_first_nul by lia. simpl.
  apply option_fmap_ext. intros n. lia.
Qed.

(** C34: [strlen] terminates within its fuel and computes the reference:
    the index of the first NUL of the array, and [None] (a read past
    the end, undefined behaviour) exactly when the array holds no NUL. *)
Theorem strlen_first_nul str : strlen str = Z.of_nat <$> first_nul str.
Proof. apply strlen_reference. Qed.

(** [strlen str] is [n] exactly when [str[n]] is NUL and every
    character before it is present and not NUL. *)
Lemma strlen_characterisation str n :
  strlen str = Some n <->
  0 <= n /\ str !! Z.to_nat n = Some 0 /\
  (forall k c, 0 <= k < n -> str !! Z.to_nat k = Some c -> c <> 0).
Proof.
  rewrite strlen_reference. split.
  - intros Hn. apply fmap_Some in Hn as [m [Hm ->]]. apply first_nul_Some in Hm as [Hm Hall].
    split; [lia|]. rewrite Nat2Z.id. split; [done|].
    intros k c Hk Hc. apply (Hall (Z.to_nat k)); [lia|done].
  - intros (Hn & H0 & Hall). apply fmap_Some. exists (Z.to_nat n). split; [|lia].
    apply first_nul_Some. split; [done|].
    intros k c Hk Hc. apply (Hall (Z.of_nat k)); [lia|]. by rewrite Nat2Z.id.
Qed.

(** C35: [strlen str] is [n] exactly when [str[n]] is NUL and every
    character before it is present and not NUL. *)
Theorem strlen_spec str n :
  strlen str = Some n <->
  0 <= n /\ str !! Z.to_nat n = Some 0 /\
  (forall k c, 0 <= k < n -> str !! Z.to_nat k = Some c -> c <> 0).
Proof. apply strlen_characterisation. Qed.

(** The length of a literal is the number of its characters. *)
Lemma strlen_c_string_literal s : 0 ∉ s -> strlen (c_string_literal s) = Some (Z.of_nat (length s)).
Proof.
  intros Hs. apply strlen_characterisation. unfold c_string_literal. split; [lia|]. split.
  - rewrite Nat2Z.id, lookup_app_r, Nat.sub_diag by lia. done.
  - intros k c Hk Hc ->. apply Hs. rewrite lookup_app_l in Hc by lia.
    by eapply list_elem_of_lookup_2.
Qed.

End CString.
