(* ===== verification/Buffer.v ===== *)
(** * Display buffer: geometry and the raw row routines

    The screen geometry ([#define VGA_WIDTH], [#define VGA_HEIGHT],
    src/kernel.c lines 53-54) is the class [Geometry]: every theorem of
    the development holds for any geometry satisfying its laws, and the
    instance [vga_80x25] is the one the program is compiled with.

    The two routines that work on raw [uint16_t] pointers,
    [terminal_blank_line] (lines 86-92) and [terminal_line_copy]
    (lines 94-102), act on the memory only.  Their theorems: which
    addresses they write, what they write there, that the copy loop
    terminates and returns [len], and that the forward copy is a correct
    copy whenever the destination does not lie above the source. *)

From Stdlib Require Import ZArith Lia.
From stdpp Require Import base gmap list.
From S2P Require Import Prelude.
Open Scope Z_scope.
Open Scope vga_scope.

(** The screen geometry, as the program's two macros, with the facts
    about them that the code relies on: both are positive and a screen
    index fits a [size_t] with room to spare. *)
Class Geometry := {
  VGA_WIDTH : Z;
  VGA_HEIGHT : Z;
  VGA_WIDTH_pos : 0 < VGA_WIDTH;
  VGA_HEIGHT_pos : 0 < VGA_HEIGHT;
  VGA_area_small : VGA_WIDTH * VGA_HEIGHT < 2 ^ 24
}.

(** [#define VGA_WIDTH 80], [#define VGA_HEIGHT 25]. *)
#[export] Instance vga_80x25 : Geometry :=
  {| VGA_WIDTH := 80; VGA_HEIGHT := 25;
     VGA_WIDTH_pos := ltac:(lia); VGA_HEIGHT_pos := ltac:(lia);
     VGA_area_small := ltac:(lia) |}.

Module Buffer.
Section WithGeometry.
Context {geom : Geometry}.

(** The blank cell of [terminal_blank_line]: character 0, attribute
    0xFF. *)
Definition BLANK_LINE_CELL : Z := 0xFF00.

(** [terminal_blank_line(line_ptr)]:
    [for (x = 0; x < VGA_WIDTH; x++) line_ptr[x] = 0xFF00u;]. *)
Definition terminal_blank_line (m : mem) (line_ptr : Z) : mem :=
  c_for 0 VGA_WIDTH (fun x m => m⟨elem line_ptr x := BLANK_LINE_CELL⟩) m.

(** The [while (i < len) { dest[i] = from[i]; i++; }] loop, run with
    [fuel] iterations at most; it returns the memory and [i].  (The
    counter is a [size_t] below [len <= SIZE_MAX], so [i++] never
    wraps.) *)
Fixpoint line_copy_loop (fuel : nat) (m : mem) (from dest len i : Z) : mem * Z :=
  match fuel with
  | O => (m, i)
  | S fuel' =>
      if i <? len
      then line_copy_loop fuel' m⟨elem dest i := m⟨elem from i⟩⟩ from dest len (i + 1)
      else (m, i)
  end.

(** [terminal_line_copy(from, dest, len)]: the loop started at [i = 0]
    with [len] iterations of fuel, enough by [line_copy_loop_fuel]. *)
Definition terminal_line_copy (m : mem) (from dest len : Z) : mem * Z :=
  line_copy_loop (Z.to_nat len) m from dest len 0.

(** The cells [p[0..n)] of a [uint16_t] array at [p]. *)
Definition in_cells (p n a : Z) : Prop := exists k, 0 <= k < n /\ a = elem p k.

(** ** Lemmas *)

Lemma in_cells_elem p n k : 0 <= k < n -> in_cells p n (elem p k).
Proof. intros Hk. exists k. done. Qed.

Lemma not_in_cells_elem p n q k :
  (forall j, 0 <= j < n -> elem p j <> elem q k) -> ~ in_cells p n (elem q k).
Proof. intros H [j [Hj Heq]]. by apply (H j). Qed.

(** Membership in an array is decidable: [a - p] is even and its half
    is an index below [n]. *)
#[export] Instance in_cells_dec p n a : Decision (in_cells p n a).
Proof.
  destruct (decide ((a - p) mod 2 = 0 /\ 0 <= (a - p) / 2 < n)) as [H|H].
  - left. exists ((a - p) / 2). unfold elem. split; [lia|]. Z.div_mod_to_equations. lia.
  - right. intros [k [Hk ->]]. apply H. unfold elem.
    replace (p + 2 * k - p) with (k * 2) by lia.
    rewrite Z.mod_mul, Z.div_mul by lia. lia.
Qed.

Lemma in_cells_mono p n n' a : n <= n' -> in_cells p n a -> in_cells p n' a.
Proof. intros Hn [k [Hk ->]]. exists k. split; [lia|done]. Qed.

Lemma in_cells_shift p s n a : 0 <= s -> in_cells (elem p s) n a -> in_cells p (s + n) a.
Proof. intros Hs [k [Hk ->]]. exists (s + k). split; [lia|]. apply elem_elem. Qed.

(** The loop finishes within [len - i] iterations: more fuel changes
    nothing. *)
Lemma line_copy_loop_fuel fuel m from dest len i :
  (Z.to_nat (len - i) <= fuel)%nat ->
  line_copy_loop fuel m from dest len i =
  line_copy_loop (Z.to_nat (len - i)) m from dest len i.
Proof.
  revert m i. induction fuel as [|fuel IH]; intros m i Hf.
  - replace (Z.to_nat (len - i)) with O by lia. done.
  - simpl. destruct (Z.ltb_spec i len) as [Hlt|Hge].
    + replace (Z.to_nat (len - i)) with (S (Z.to_nat (len - (i + 1)))) by lia.
      simpl. rewrite (proj2 (Z.ltb_lt i len) Hlt). apply IH. lia.
    + replace (Z.to_nat (len - i)) with O by lia. done.
Qed.

(** The copy loop, unrolled at its last iteration. *)
Lemma line_copy_loop_spec m from dest len i :
  i <= len ->
  line_copy_loop (Z.to_nat (len - i)) m from dest len i =
  (c_for i len (fun k m => m⟨elem dest k := m⟨elem from k⟩⟩) m, len).
Proof.
  intros Hi. remember (Z.to_nat (len - i)) as n eqn:Hn. revert m i Hi Hn.
  induction n as [|n IH]; intros m i Hi Hn.
  - rewrite c_for_empty by lia. simpl. f_equal. lia.
  - simpl. rewrite (proj2 (Z.ltb_lt i len)) by lia.
    rewrite IH by lia. f_equal.
    unfold c_for. replace (Z.to_nat (len - i)) with (S (Z.to_nat (len - (i + 1)))) by lia.
    done.
Qed.

(** [terminal_line_copy] is the counting loop that copies cell by cell. *)
Lemma terminal_line_copy_as_for m from dest len :
  0 <= len ->
  terminal_line_copy m from dest len =
  (c_for 0 len (fun k m => m⟨elem dest k := m⟨elem from k⟩⟩) m, len).
Proof.
  intros Hlen. unfold terminal_line_copy.
  replace (Z.to_nat len) with (Z.to_nat (len - 0)) by (f_equal; lia).
  apply line_copy_loop_spec. lia.
Qed.

(** The shape shared by both routines: a loop that stores, at iteration
    [k], a value into [p[k]].  If the value stored at [k] only depends
    on memory the loop has not yet written, the loop writes [val k] at
    each [p[k]] and nothing outside [p[0..n)]. *)
Lemma store_loop_spec (p n : Z) (v : Z -> mem -> Z) (val : Z -> Z) (m0 : mem) :
  0 <= n ->
  (forall k m, 0 <= k < n -> unchanged_outside (in_cells p k) m0 m -> v k m = val k) ->
  (forall k, 0 <= k < n ->
     c_for 0 n (fun k m => m⟨elem p k := v k m⟩) m0 !! elem p k = Some (val k)) /\
  unchanged_outside (in_cells p n) m0 (c_for 0 n (fun k m => m⟨elem p k := v k m⟩) m0).
Proof.
  intros Hn Hv.
  apply (c_for_inv (fun i m => (forall k, 0 <= k < i -> m !! elem p k = Some (val k)) /\
                                unchanged_outside (in_cells p i) m0 m)); [lia| |].
  - split; [intros; lia|]. intros a _. done.
  - intros i m Hi [Hcells Hframe]. split.
    + intros k Hk. destruct (Z.eq_dec k i) as [->|Hne].
      * rewrite lookup_store_eq. f_equal. by apply Hv.
      * rewrite lookup_store_ne by (unfold elem; lia). apply Hcells. lia.
    + etrans.
      * eapply unchanged_outside_weaken; [|exact Hframe].
        intros a [j [Hj ->]]. apply in_cells_elem. lia.
      * apply unchanged_outside_store. apply in_cells_elem. lia.
Qed.

(** [terminal_blank_line(p)] sets the [VGA_WIDTH] cells [p[0..W)]
    to 0xFF00 and writes nothing else. *)
Lemma blank_line_fills_row m p :
  (forall x, 0 <= x < VGA_WIDTH -> (terminal_blank_line m p)⟨elem p x⟩ = BLANK_LINE_CELL) /\
  unchanged_outside (in_cells p VGA_WIDTH) m (terminal_blank_line m p).
Proof.
  pose proof VGA_WIDTH_pos.
  destruct (store_loop_spec p VGA_WIDTH (fun _ _ => BLANK_LINE_CELL) (fun _ => BLANK_LINE_CELL) m)
    as [Hcells Hframe]; [lia|done|].
  split; [intros x Hx; apply lookup_load; by apply Hcells|exact Hframe].
Qed.

(** C27: [terminal_blank_line(p)] sets the [VGA_WIDTH] cells [p[0..W)]
    to 0xFF00 and writes nothing else. *)
Theorem terminal_blank_line_spec m p :
  (forall x, 0 <= x < VGA_WIDTH -> (terminal_blank_line m p)⟨elem p x⟩ = BLANK_LINE_CELL) /\
  unchanged_outside (in_cells p VGA_WIDTH) m (terminal_blank_line m p).
Proof. apply blank_line_fills_row. Qed.

(** Reading [from[k]] before the loop has reached [k] reads the original
    value when the destination lies below the source or the two arrays
    are disjoint. *)
Lemma copy_source_untouched from dest len k :
  dest <= from \/ from + 2 * len <= dest -> 0 <= k < len ->
  ~ in_cells dest k (elem from k).
Proof. intros Hov Hk [j [Hj Heq]]. unfold elem in Heq. lia. Qed.

(** The copy at the level of map lookups. *)
Lemma terminal_line_copy_lookup m from dest len :
  0 <= len ->
  dest <= from \/ from + 2 * len <= dest ->
  (forall k, 0 <= k < len ->
     fst (terminal_line_copy m from dest len) !! elem dest k = Some m⟨elem from k⟩) /\
  unchanged_outside (in_cells dest len) m (fst (terminal_line_copy m from dest len)).
Proof.
  intros Hlen Hov. rewrite terminal_line_copy_as_for by done. simpl.
  apply (store_loop_spec dest len (fun k m => m⟨elem from k⟩) (fun k => m⟨elem from k⟩));
    [done|].
  intros k m' Hk Hframe. eapply unchanged_outside_load; [exact Hframe|].
  by apply (copy_source_untouched from dest len).
Qed.

(** [terminal_line_copy(from, dest, len)] terminates, returns [len],
    and leaves [dest[k] = from[k]] (the values before the call) for
    every [k < len], writing nothing outside [dest[0..len)], provided
    the destination lies below the source or the two do not overlap
    (the forward copy is then a correct [memmove]). *)
Lemma line_copy_correct m from dest len :
  0 <= len ->
  dest <= from \/ from + 2 * len <= dest ->
  snd (terminal_line_copy m from dest len) = len /\
  (forall k, 0 <= k < len ->
     (fst (terminal_line_copy m from dest len))⟨elem dest k⟩ = m⟨elem from k⟩) /\
  unchanged_outside (in_cells dest len) m (fst (terminal_line_copy m from dest len)).
Proof.
  intros Hlen Hov. destruct (terminal_line_copy_lookup m from dest len Hlen Hov) as [Hc Hf].
  split; [rewrite terminal_line_copy_as_for by done; done|].
  split; [intros k Hk; apply lookup_load; by apply Hc|exact Hf].
Qed.

(** C10: [terminal_line_copy(from, dest, len)] terminates, returns [len],
    and leaves [dest[k] = from[k]] (the values before the call) for
    every [k < len], writing nothing outside [dest[0..len)], provided
    the destination lies below the source or the two do not overlap
    (the forward copy is then a correct [memmove]). *)
Theorem terminal_line_copy_spec m from dest len :
  0 <= len ->
  dest <= from \/ from + 2 * len <= dest ->
  snd (terminal_line_copy m from dest len) = len /\
  (forall k, 0 <= k < len ->
     (fst (terminal_line_copy m from dest len))⟨elem dest k⟩ = m⟨elem from k⟩) /\
  unchanged_outside (in_cells dest len) m (fst (terminal_line_copy m from dest len)).
Proof. apply line_copy_correct. Qed.

End WithGeometry.

(** Copy correctness at a concrete input: copying two cells from address 10 down to
    address 0 brings the value 6 of address 12 to address 2. *)
Lemma terminal_line_copy_spec_witness :
  let m : mem := <[10 := 5]> (<[12 := 6]> ∅) in
  (fst (terminal_line_copy m 10 0 2))⟨elem 0 1⟩ = 6.
Proof.
  intros m.
  rewrite (proj1 (proj2 (terminal_line_copy_spec m 10 0 2 ltac:(lia) ltac:(lia))) 1 ltac:(lia)).
  reflexivity.
Defined.

End Buffer.
