(* ===== verification/Terminal.v ===== *)
(** * Terminal state, initialisation and single-cell output

    The four globals of src/kernel.c (lines 56-59: [terminal_row],
    [terminal_column], [terminal_color], [terminal_buffer]) and the
    memory form the record [term].  This file models
    [terminal_initialize] (lines 61-73), [terminal_blank] (75-84),
    [terminal_setcolor] (104-107) and [terminal_putentryat] (109-113),
    states the terminal invariant [term_inv] and proves that
    initialisation fills the screen and establishes the invariant. *)

From Stdlib Require Import ZArith Lia.
From stdpp Require Import base gmap list.
From S2P Require Import Prelude CellCodec Buffer.
Open Scope Z_scope.
Open Scope vga_scope.

Module Terminal.
Import CellCodec.CellCodec Buffer.Buffer.

(** The program's globals and the memory. *)
Record term := mk_term {
  terminal_row : Z;
  terminal_column : Z;
  terminal_color : Z;
  terminal_buffer : Z;
  term_mem : mem
}.

Definition set_row (st : term) (r : Z) : term :=
  mk_term r (terminal_column st) (terminal_color st) (terminal_buffer st) (term_mem st).
Definition set_column (st : term) (c : Z) : term :=
  mk_term (terminal_row st) c (terminal_color st) (terminal_buffer st) (term_mem st).
Definition set_color (st : term) (c : Z) : term :=
  mk_term (terminal_row st) (terminal_column st) c (terminal_buffer st) (term_mem st).
Definition set_mem (st : term) (m : mem) : term :=
  mk_term (terminal_row st) (terminal_column st) (terminal_color st) (terminal_buffer st) m.

(** The state at boot: C zero-initialises the globals (so
    [terminal_buffer] is a null pointer); the memory is whatever the
    machine holds. *)
Definition boot_state (m : mem) : term := mk_term 0 0 0 0 m.

(** [(uint16_t* ) 0xB8000], the text-mode frame buffer. *)
Definition VGA_MEMORY : Z := 0xB8000.

(** The character [' ']. *)
Definition SPACE : Z := 32.

Section WithGeometry.
Context {geom : Geometry}.

(** The double loop of [terminal_initialize] and [terminal_blank]:
    every cell [buf[y * VGA_WIDTH + x]] receives [vga_entry(' ', color)];
    the index is a [size_t]. *)
Definition fill_screen (buf color : Z) (m : mem) : mem :=
  c_for 0 VGA_HEIGHT (fun y m =>
    c_for 0 VGA_WIDTH (fun x m =>
      let index := size_t_of (y * VGA_WIDTH + x) in
      m⟨elem buf index := vga_entry SPACE color⟩) m) m.

(** [terminal_initialize()]: cursor to (0,0), colour green on black,
    buffer at 0xB8000, then every cell blanked with a space. *)
Definition terminal_initialize (st : term) : term :=
  let color := vga_entry_color VGA_COLOR_GREEN VGA_COLOR_BLACK in
  let st := mk_term 0 0 color VGA_MEMORY (term_mem st) in
  set_mem st (fill_screen (terminal_buffer st) (terminal_color st) (term_mem st)).

(** [terminal_blank()]: every cell blanked with a space in the current
    colour; the cursor is not moved. *)
Definition terminal_blank (st : term) : term :=
  set_mem st (fill_screen (terminal_buffer st) (terminal_color st) (term_mem st)).

(** [terminal_setcolor(uint8_t color)]. *)
Definition terminal_setcolor (st : term) (color : Z) : term :=
  set_color st (uint8 color).

(** [terminal_putentryat(c, color, x, y)]. *)
Definition terminal_putentryat (st : term) (c color x y : Z) : term :=
  let index := size_t_of (y * VGA_WIDTH + x) in
  set_mem st (term_mem st)⟨elem (terminal_buffer st) index := vga_entry c color⟩.

(** ** Observations *)

(** The address of cell (x, y) and its content ([read_cell] of the
    specification). *)
Definition cell_addr (st : term) (x y : Z) : Z := elem (terminal_buffer st) (y * VGA_WIDTH + x).
Definition read_cell (st : term) (x y : Z) : Z := (term_mem st)⟨cell_addr st x y⟩.

(** The addresses of the frame buffer. *)
Definition in_screen (buf a : Z) : Prop := in_cells buf (VGA_WIDTH * VGA_HEIGHT) a.

(** The invariant every public operation keeps once the terminal is
    initialised: the cursor is on the screen, the colour is a byte, the
    buffer is the frame buffer and every cell holds a 16-bit value. *)
Record term_inv (st : term) : Prop := {
  inv_row : 0 <= terminal_row st < VGA_HEIGHT;
  inv_column : 0 <= terminal_column st < VGA_WIDTH;
  inv_color : 0 <= terminal_color st < 2 ^ 8;
  inv_buffer : terminal_buffer st = VGA_MEMORY;
  inv_cells : forall x y, 0 <= x < VGA_WIDTH -> 0 <= y < VGA_HEIGHT ->
                valid_cell (read_cell st x y)
}.

(** ** Lemmas *)

Lemma screen_index_range x y :
  0 <= x < VGA_WIDTH -> 0 <= y < VGA_HEIGHT ->
  0 <= y * VGA_WIDTH + x < VGA_WIDTH * VGA_HEIGHT.
Proof. intros. nia. Qed.

Lemma screen_index_size_t x y :
  0 <= x < VGA_WIDTH -> 0 <= y < VGA_HEIGHT ->
  size_t_of (y * VGA_WIDTH + x) = y * VGA_WIDTH + x.
Proof.
  intros Hx Hy. pose proof (screen_index_range x y Hx Hy). pose proof VGA_area_small.
  apply size_t_small. lia.
Qed.

(** Distinct screen positions have distinct addresses. *)
Lemma screen_index_inj x y x' y' :
  0 <= x < VGA_WIDTH -> 0 <= x' < VGA_WIDTH ->
  y * VGA_WIDTH + x = y' * VGA_WIDTH + x' -> x = x' /\ y = y'.
Proof. intros Hx Hx' Heq. assert (y = y') by nia. subst. lia. Qed.

Lemma in_screen_cell buf x y :
  0 <= x < VGA_WIDTH -> 0 <= y < VGA_HEIGHT -> in_screen buf (elem buf (y * VGA_WIDTH + x)).
Proof. intros. apply in_cells_elem. by apply screen_index_range. Qed.

(** The address of cell [x] of row [y]. *)
Lemma row_elem buf y x : elem (elem buf (y * VGA_WIDTH)) x = elem buf (y * VGA_WIDTH + x).
Proof. apply elem_elem. Qed.

(** Cell [x] of row [y'] is not in row [y] when [y' <> y]. *)
Lemma not_in_other_row buf y y' x :
  0 <= x < VGA_WIDTH -> y' <> y ->
  ~ in_cells (elem buf (y * VGA_WIDTH)) VGA_WIDTH (elem buf (y' * VGA_WIDTH + x)).
Proof.
  intros Hx Hne [j [Hj Heq]]. rewrite row_elem in Heq. unfold elem in Heq.
  destruct (screen_index_inj x y' j y); lia.
Qed.

(** Rows [0 .. i-1] written, then row [i] written: rows [0 .. i]
    written. *)
Lemma unchanged_rows_step buf i m0 m1 m2 :
  0 <= i ->
  unchanged_outside (in_cells buf (VGA_WIDTH * i)) m0 m1 ->
  unchanged_outside (in_cells (elem buf (i * VGA_WIDTH)) VGA_WIDTH) m1 m2 ->
  unchanged_outside (in_cells buf (VGA_WIDTH * (i + 1))) m0 m2.
Proof.
  intros Hi H01 H12. pose proof VGA_WIDTH_pos. etrans.
  - eapply unchanged_outside_weaken; [|exact H01]. intros a. apply in_cells_mono. nia.
  - eapply unchanged_outside_weaken; [|exact H12]. intros a Ha.
    replace (VGA_WIDTH * (i + 1)) with (i * VGA_WIDTH + VGA_WIDTH) by lia.
    apply in_cells_shift; [nia|done].
Qed.

(** The screen-filling double loop writes [v] into every cell of the
    screen at [buf] and nothing else. *)
Lemma fill_screen_spec buf color m :
  (forall x y, 0 <= x < VGA_WIDTH -> 0 <= y < VGA_HEIGHT ->
     (fill_screen buf color m)⟨elem buf (y * VGA_WIDTH + x)⟩ = vga_entry SPACE color) /\
  unchanged_outside (in_screen buf) m (fill_screen buf color m).
Proof.
  pose proof VGA_WIDTH_pos. pose proof VGA_HEIGHT_pos.
  set (v := vga_entry SPACE color). unfold fill_screen, in_screen.
  apply (c_for_inv (fun y m' =>
    (forall x y', 0 <= x < VGA_WIDTH -> 0 <= y' < y -> m'⟨elem buf (y' * VGA_WIDTH + x)⟩ = v) /\
    unchanged_outside (in_cells buf (VGA_WIDTH * y)) m m')); [lia| |].
  - split; [intros; lia|]. intros a _. done.
  - intros y m' Hy [Hcells Hframe].
    rewrite (c_for_ext _ _ _ (fun x m => m⟨elem (elem buf (y * VGA_WIDTH)) x := v⟩))
      by (intros x m'' Hx; rewrite screen_index_size_t, elem_elem by lia; done).
    destruct (store_loop_spec (elem buf (y * VGA_WIDTH)) VGA_WIDTH (fun _ _ => v) (fun _ => v) m')
      as [Hrow Hrow_frame]; [lia|done|].
    split; [|apply (unchanged_rows_step buf y m m'); [lia|done|done]].
    intros x y' Hx Hy'. destruct (Z.eq_dec y' y) as [->|Hne].
    + apply lookup_load. rewrite <- row_elem. by apply Hrow.
    + erewrite unchanged_outside_load; [apply Hcells; lia|exact Hrow_frame|].
      by apply not_in_other_row.
Qed.

(** The default attribute, green on black (the byte 0x02). *)
Definition default_color : Z := vga_entry_color VGA_COLOR_GREEN VGA_COLOR_BLACK.

(** [terminal_initialize] puts the cursor at (0,0), selects green on
    black, points [terminal_buffer] at 0xB8000, fills every cell
    (x, y) of the screen with [vga_entry(' ', green on black)], and
    writes no memory outside the frame buffer. *)
Lemma initialize_fills_screen st :
  let st' := terminal_initialize st in
  terminal_row st' = 0 /\ terminal_column st' = 0 /\
  terminal_color st' = default_color /\ terminal_buffer st' = VGA_MEMORY /\
  (forall x y, 0 <= x < VGA_WIDTH -> 0 <= y < VGA_HEIGHT ->
     read_cell st' x y = vga_entry SPACE default_color) /\
  unchanged_outside (in_screen VGA_MEMORY) (term_mem st) (term_mem st').
Proof.
  destruct (fill_screen_spec VGA_MEMORY default_color (term_mem st)) as [Hcells Hframe].
  cbn zeta. repeat split; first [done | intros x y Hx Hy; by apply Hcells].
Qed.

(** C8: [terminal_initialize] puts the cursor at (0,0), selects green on
    black, points [terminal_buffer] at 0xB8000, fills every cell
    (x, y) of the screen with [vga_entry(' ', green on black)], and
    writes no memory outside the frame buffer. *)
Theorem terminal_initialize_spec st :
  let st' := terminal_initialize st in
  terminal_row st' = 0 /\ terminal_column st' = 0 /\
  terminal_color st' = default_color /\ terminal_buffer st' = VGA_MEMORY /\
  (forall x y, 0 <= x < VGA_WIDTH -> 0 <= y < VGA_HEIGHT ->
     read_cell st' x y = vga_entry SPACE default_color) /\
  unchanged_outside (in_screen VGA_MEMORY) (term_mem st) (term_mem st').
Proof. apply initialize_fills_screen. Qed.

(** C28: [terminal_blank] fills every cell (x, y) of the screen with
    [vga_entry(' ', terminal_color)] in the current colour, keeps the
    cursor, the colour and the buffer pointer, and writes no memory
    outside the [VGA_WIDTH * VGA_HEIGHT] cells of the buffer. *)
Theorem terminal_blank_spec st :
  let st' := terminal_blank st in
  terminal_row st' = terminal_row st /\ terminal_column st' = terminal_column st /\
  terminal_color st' = terminal_color st /\ terminal_buffer st' = terminal_buffer st /\
  (forall x y, 0 <= x < VGA_WIDTH -> 0 <= y < VGA_HEIGHT ->
     read_cell st' x y = vga_entry SPACE (terminal_color st)) /\
  unchanged_outside (in_screen (terminal_buffer st)) (term_mem st) (term_mem st').
Proof.
  destruct (fill_screen_spec (terminal_buffer st) (terminal_color st) (term_mem st))
    as [Hcells Hframe].
  cbn zeta. repeat split; first [done | intros x y Hx Hy; by apply Hcells].
Qed.

Lemma default_color_byte : 0 <= default_color < 2 ^ 8.
Proof. unfold default_color. rewrite vga_entry_color_spec. simpl. lia. Qed.

(** After [terminal_initialize] the terminal invariant holds, from
    any state whatever (the globals need not be zero and the memory is
    arbitrary). *)
Lemma initialize_establishes_inv st : term_inv (terminal_initialize st).
Proof.
  pose proof VGA_WIDTH_pos. pose proof VGA_HEIGHT_pos. pose proof default_color_byte.
  destruct (initialize_fills_screen st) as (Hr & Hc & Hcol & Hbuf & Hcells & _).
  split; try (rewrite ?Hr, ?Hc, ?Hcol, ?Hbuf; lia || done).
  intros x y Hx Hy. rewrite Hcells by done. apply vga_entry_valid.
Qed.

(** C17: after [terminal_initialize] the terminal invariant holds, from
    any state whatever (the globals need not be zero and the memory is
    arbitrary). *)
Theorem terminal_initialize_inv st : term_inv (terminal_initialize st).
Proof. apply initialize_establishes_inv. Qed.

(** ** Deciding the invariant

    [term_inv] with its quantifiers over the screen turned into [Forall]
    over the row and column indices, so that it can be decided by
    evaluation on a concrete state. *)
Definition term_inv_list (st : term) : Prop :=
  (0 <= terminal_row st < VGA_HEIGHT /\ 0 <= terminal_column st < VGA_WIDTH /\
   0 <= terminal_color st < 2 ^ 8 /\ terminal_buffer st = VGA_MEMORY) /\
  Forall (fun y => Forall (fun x => valid_cell (read_cell st x y)) (seqZ 0 VGA_WIDTH))
    (seqZ 0 VGA_HEIGHT).

Lemma term_inv_list_iff st : term_inv st <-> term_inv_list st.
Proof.
  unfold term_inv_list. split.
  - intros [Hr Hc Hcol Hb Hcells]. split; [done|].
    apply Forall_seqZ. intros y Hy. apply Forall_seqZ. intros x Hx. apply Hcells; lia.
  - intros [(? & ? & ? & ?) Hcells]. split; try done. intros x y Hx Hy.
    pose proof (proj1 (Forall_seqZ _ _ _) Hcells y ltac:(lia)) as Hrow. simpl in Hrow.
    exact (proj1 (Forall_seqZ _ _ _) Hrow x ltac:(lia)).
Qed.

#[export] Instance term_inv_dec st : Decision (term_inv st).
Proof.
  destruct (decide (term_inv_list st)) as [H|H]; [left|right]; by rewrite term_inv_list_iff.
Defined.

(** [terminal_putentryat] at an on-screen position writes exactly that
    cell and touches no global. *)
Lemma terminal_putentryat_spec st c color x y :
  0 <= x < VGA_WIDTH -> 0 <= y < VGA_HEIGHT ->
  let st' := terminal_putentryat st c color x y in
  terminal_row st' = terminal_row st /\ terminal_column st' = terminal_column st /\
  terminal_color st' = terminal_color st /\ terminal_buffer st' = terminal_buffer st /\
  (forall x' y', 0 <= x' < VGA_WIDTH -> 0 <= y' < VGA_HEIGHT ->
     read_cell st' x' y' = if decide (x' = x /\ y' = y) then vga_entry c color else read_cell st x' y') /\
  unchanged_outside (in_screen (terminal_buffer st)) (term_mem st) (term_mem st').
Proof.
  intros Hx Hy. cbn zeta. unfold terminal_putentryat. rewrite screen_index_size_t by done.
  repeat split; simpl.
  - intros x' y' Hx' Hy'. unfold read_cell, cell_addr. simpl. case_decide as Heq.
    + destruct Heq as [-> ->]. apply load_store_eq.
    + apply load_store_ne. intros Habs. apply elem_inj in Habs.
      destruct (screen_index_inj x y x' y'); [done|done|done|]. apply Heq. done.
  - apply unchanged_outside_store. by apply in_screen_cell.
Qed.

(** [terminal_putentryat] keeps the invariant. *)
Lemma terminal_putentryat_inv st c color x y :
  0 <= x < VGA_WIDTH -> 0 <= y < VGA_HEIGHT ->
  term_inv st -> term_inv (terminal_putentryat st c color x y).
Proof.
  intros Hx Hy Hinv. destruct (terminal_putentryat_spec st c color x y Hx Hy)
    as (Hr & Hc & Hcol & Hbuf & Hcells & _).
  split; try (rewrite ?Hr, ?Hc, ?Hcol, ?Hbuf; apply Hinv).
  intros x' y' Hx' Hy'. rewrite Hcells by done. case_decide; [apply vga_entry_valid|by apply Hinv].
Qed.

(** [terminal_setcolor] keeps the invariant: the colour is converted to
    a byte. *)
Lemma terminal_setcolor_inv st color : term_inv st -> term_inv (terminal_setcolor st color).
Proof. intros []. split; try done. apply uint8_range. Qed.

(** Moving the cursor to a position on the screen keeps the invariant. *)
Lemma term_inv_set_cursor st r c :
  term_inv st -> 0 <= r < VGA_HEIGHT -> 0 <= c < VGA_WIDTH ->
  term_inv (set_column (set_row st r) c).
Proof. intros [] Hr Hc. by split. Qed.

End WithGeometry.
End Terminal.
