(* ===== verification/Scroll.v ===== *)
(** * Scroll engine: [terminal_scroll_newline]

    Models [terminal_scroll_newline] of src/kernel.c (lines 115-121):
    for each row [i] from 0 to [VGA_HEIGHT - 2], in increasing order,
    the row is blanked with [terminal_blank_line] and then overwritten
    with row [i + 1] by [terminal_line_copy].

    The theorems: every row but the last receives the old content of
    the row below it; the last row keeps its old content (the code never
    blanks it, unlike what the specification describes); the
    [terminal_blank_line] call is dead, since its cells are always
    overwritten; and nothing outside rows [0 .. VGA_HEIGHT - 2] is
    written. *)

From Stdlib Require Import ZArith Lia.
From stdpp Require Import base gmap list.
From S2P Require Import Prelude CellCodec Buffer Terminal.
Open Scope Z_scope.
Open Scope vga_scope.

Module Scroll.
Import CellCodec.CellCodec Buffer.Buffer Terminal.Terminal.

Section WithGeometry.
Context {geom : Geometry}.

(** One iteration of the loop, on the memory, for row [i] of the
    screen at [buf]: [terminal_blank_line(&buf[i*W])] then
    [terminal_line_copy(&buf[(i+1)*W], &buf[i*W], W)]. *)
Definition scroll_row (buf i : Z) (m : mem) : mem :=
  let m := terminal_blank_line m (elem buf (i * VGA_WIDTH)) in
  fst (terminal_line_copy m (elem buf ((i + 1) * VGA_WIDTH)) (elem buf (i * VGA_WIDTH)) VGA_WIDTH).

(** [terminal_scroll_newline()]:
    [for (int i = 0; i < VGA_HEIGHT - 1; i++) { blank row i; copy row i+1 to row i; }]. *)
Definition terminal_scroll_newline (st : term) : term :=
  set_mem st (c_for 0 (VGA_HEIGHT - 1) (scroll_row (terminal_buffer st)) (term_mem st)).

(** ** Lemmas *)

(** One iteration: row [i] receives row [i + 1]; nothing outside row
    [i] changes. *)
Lemma scroll_row_spec buf i m :
  (forall x, 0 <= x < VGA_WIDTH ->
     (scroll_row buf i m)⟨elem buf (i * VGA_WIDTH + x)⟩ = m⟨elem buf ((i + 1) * VGA_WIDTH + x)⟩) /\
  unchanged_outside (in_cells (elem buf (i * VGA_WIDTH)) VGA_WIDTH) m (scroll_row buf i m).
Proof.
  pose proof VGA_WIDTH_pos. unfold scroll_row.
  set (mb := terminal_blank_line m (elem buf (i * VGA_WIDTH))).
  destruct (blank_line_fills_row m (elem buf (i * VGA_WIDTH))) as [_ Hbl].
  destruct (line_copy_correct mb (elem buf ((i + 1) * VGA_WIDTH))
              (elem buf (i * VGA_WIDTH)) VGA_WIDTH) as (_ & Hcp & Hcp_frame);
    [lia|left; unfold elem; lia|].
  split.
  - intros x Hx. rewrite <- !row_elem, Hcp by done. rewrite row_elem.
    eapply unchanged_outside_load; [exact Hbl|]. apply not_in_other_row; lia.
  - etrans; [exact Hbl|exact Hcp_frame].
Qed.

(** The loop invariant: after the rows [0 .. k-1] have been processed,
    each of them holds the old content of the row below, and only they
    have been written. *)
Lemma scroll_loop_spec buf m k :
  0 <= k <= VGA_HEIGHT - 1 ->
  (forall x y, 0 <= x < VGA_WIDTH -> 0 <= y < k ->
     (c_for 0 k (scroll_row buf) m)⟨elem buf (y * VGA_WIDTH + x)⟩ =
     m⟨elem buf ((y + 1) * VGA_WIDTH + x)⟩) /\
  unchanged_outside (in_cells buf (VGA_WIDTH * k)) m (c_for 0 k (scroll_row buf) m).
Proof.
  intros Hk. pose proof VGA_WIDTH_pos.
  apply (c_for_inv (fun k m' =>
    (forall x y, 0 <= x < VGA_WIDTH -> 0 <= y < k ->
       m'⟨elem buf (y * VGA_WIDTH + x)⟩ = m⟨elem buf ((y + 1) * VGA_WIDTH + x)⟩) /\
    unchanged_outside (in_cells buf (VGA_WIDTH * k)) m m')); [lia| |].
  - split; [intros; lia|]. reflexivity.
  - intros i m' Hi [Hrows Hframe].
    destruct (scroll_row_spec buf i m') as [Hrow Hrow_frame]. split.
    + intros x y Hx Hy. destruct (Z.eq_dec y i) as [->|Hne].
      * rewrite Hrow by done. eapply unchanged_outside_load; [exact Hframe|].
        intros [j [Hj Heq]]. unfold elem in Heq. nia.
      * erewrite unchanged_outside_load; [apply Hrows; lia|exact Hrow_frame|].
        apply not_in_other_row; lia.
    + apply (unchanged_rows_step buf i m m'); [lia|done|done].
Qed.

(** [terminal_scroll_newline] moves every row up by one: for every
    row [y < VGA_HEIGHT - 1], the new row [y] is, cell by cell, the old
    row [y + 1].  The cursor, the colour and the buffer pointer are
    unchanged, and no memory outside rows [0 .. VGA_HEIGHT - 2] of the
    buffer is written. *)
Lemma scroll_newline_shift_spec st :
  let st' := terminal_scroll_newline st in
  terminal_row st' = terminal_row st /\ terminal_column st' = terminal_column st /\
  terminal_color st' = terminal_color st /\ terminal_buffer st' = terminal_buffer st /\
  (forall x y, 0 <= x < VGA_WIDTH -> 0 <= y < VGA_HEIGHT - 1 ->
     read_cell st' x y = read_cell st x (y + 1)) /\
  unchanged_outside (in_cells (terminal_buffer st) (VGA_WIDTH * (VGA_HEIGHT - 1)))
    (term_mem st) (term_mem st').
Proof.
  pose proof VGA_HEIGHT_pos.
  destruct (scroll_loop_spec (terminal_buffer st) (term_mem st) (VGA_HEIGHT - 1)) as [Hrows Hframe];
    [lia|].
  cbn zeta. repeat split; first [done | intros x y Hx Hy; by apply Hrows].
Qed.

(** C2: [terminal_scroll_newline] moves every row up by one: for every
    row [y < VGA_HEIGHT - 1], the new row [y] is, cell by cell, the old
    row [y + 1].  The cursor, the colour and the buffer pointer are
    unchanged, and no memory outside rows [0 .. VGA_HEIGHT - 2] of the
    buffer is written. *)
Theorem terminal_scroll_newline_shift st :
  let st' := terminal_scroll_newline st in
  terminal_row st' = terminal_row st /\ terminal_column st' = terminal_column st /\
  terminal_color st' = terminal_color st /\ terminal_buffer st' = terminal_buffer st /\
  (forall x y, 0 <= x < VGA_WIDTH -> 0 <= y < VGA_HEIGHT - 1 ->
     read_cell st' x y = read_cell st x (y + 1)) /\
  unchanged_outside (in_cells (terminal_buffer st) (VGA_WIDTH * (VGA_HEIGHT - 1)))
    (term_mem st) (term_mem st').
Proof. apply scroll_newline_shift_spec. Qed.

(** [terminal_scroll_newline] does not blank the last row: every
    cell of row [VGA_HEIGHT - 1] keeps its old content, so after a
    scroll the last two rows are equal. *)
Lemma scroll_newline_keeps_last_row st x :
  0 <= x < VGA_WIDTH ->
  read_cell (terminal_scroll_newline st) x (VGA_HEIGHT - 1) = read_cell st x (VGA_HEIGHT - 1).
Proof.
  intros Hx. destruct (scroll_newline_shift_spec st) as (_ & _ & _ & Hbuf & _ & Hframe).
  unfold read_cell, cell_addr. rewrite Hbuf.
  eapply unchanged_outside_load; [exact Hframe|].
  intros [j [Hj Heq]]. unfold elem in Heq. nia.
Qed.

(** C6: [terminal_scroll_newline] does not blank the last row: every
    cell of row [VGA_HEIGHT - 1] keeps its old content, so after a
    scroll the last two rows are equal. *)
Theorem terminal_scroll_newline_last_row st x :
  0 <= x < VGA_WIDTH ->
  read_cell (terminal_scroll_newline st) x (VGA_HEIGHT - 1) = read_cell st x (VGA_HEIGHT - 1).
Proof. apply scroll_newline_keeps_last_row. Qed.

(** The copy-only loop body: [scroll_row] without [terminal_blank_line]. *)
Definition scroll_row_copy_only (buf i : Z) (m : mem) : mem :=
  fst (terminal_line_copy m (elem buf ((i + 1) * VGA_WIDTH)) (elem buf (i * VGA_WIDTH)) VGA_WIDTH).

(** C19: the [terminal_blank_line] call inside the scroll loop is dead:
    the memory after [terminal_scroll_newline] is exactly the memory
    after the same loop without it, since the copy overwrites every cell
    the blanking wrote. *)
Theorem terminal_scroll_newline_blank_dead st :
  terminal_scroll_newline st =
  set_mem st (c_for 0 (VGA_HEIGHT - 1) (scroll_row_copy_only (terminal_buffer st)) (term_mem st)).
Proof.
  pose proof VGA_WIDTH_pos. unfold terminal_scroll_newline. f_equal.
  apply c_for_ext. intros i m _. set (buf := terminal_buffer st).
  set (dest := elem buf (i * VGA_WIDTH)). set (from := elem buf ((i + 1) * VGA_WIDTH)).
  destruct (blank_line_fills_row m dest) as [_ Hbl].
  destruct (terminal_line_copy_lookup (terminal_blank_line m dest) from dest VGA_WIDTH)
    as [Hc1 Hf1]; [lia|left; unfold from, dest, elem; lia|].
  destruct (terminal_line_copy_lookup m from dest VGA_WIDTH)
    as [Hc2 Hf2]; [lia|left; unfold from, dest, elem; lia|].
  apply map_eq. intros a. unfold scroll_row, scroll_row_copy_only. fold dest from.
  destruct (decide (in_cells dest VGA_WIDTH a)) as [[k [Hk ->]]|Hout].
  - rewrite Hc1, Hc2 by done. f_equal.
    eapply unchanged_outside_load; [exact Hbl|].
    unfold from, dest. rewrite row_elem. apply not_in_other_row; lia.
  - rewrite Hf1, Hf2, Hbl by done. done.
Qed.

(** Scrolling keeps the terminal invariant: every row receives valid
    cells and the globals are untouched. *)
Lemma terminal_scroll_newline_inv st : term_inv st -> term_inv (terminal_scroll_newline st).
Proof.
  intros Hinv. destruct (scroll_newline_shift_spec st) as (Hr & Hc & Hcol & Hbuf & Hrows & _).
  split; try (rewrite ?Hr, ?Hc, ?Hcol, ?Hbuf; apply Hinv).
  intros x y Hx Hy. destruct (Z.eq_dec y (VGA_HEIGHT - 1)) as [->|Hne].
  - rewrite scroll_newline_keeps_last_row by done. apply Hinv; lia.
  - rewrite Hrows by lia. apply Hinv; lia.
Qed.

End WithGeometry.

(** The kept last row on the 80x25 screen, right after [terminal_initialize]: after a
    scroll the last row still holds spaces in green on black, not the
    0xFF00 blank of [terminal_blank_line]. *)
Lemma terminal_scroll_newline_last_row_witness :
  let st := terminal_initialize (boot_state ∅) in
  read_cell (terminal_scroll_newline st) 0 (VGA_HEIGHT - 1) = vga_entry SPACE default_color /\
  vga_entry SPACE default_color <> BLANK_LINE_CELL.
Proof.
  intros st. split; [|vm_compute; discriminate].
  rewrite (terminal_scroll_newline_last_row st 0) by (simpl; lia).
  apply (initialize_fills_screen (boot_state ∅)); simpl; lia.
Defined.

End Scroll.
