(* ===== verification/Writer.v ===== *)
(** * Writer: the line discipline

    Models [terminal_putchar] (src/kernel.c lines 123-143),
    [terminal_write] (145-149) and [terminal_writestring] (151-154).
    [terminal_putchar] is a total function on the terminal state;
    [terminal_write] reads [data[i]] from the caller's array and is
    [None] when it reads past it (undefined behaviour in C).

    The theorems: [terminal_putchar] keeps the terminal invariant and
    never writes outside the frame buffer; its behaviour on each branch
    (character, wrap, newline, with and without scrolling); and
    [terminal_write]/[terminal_writestring] are [terminal_putchar]
    folded over the characters. *)

From Stdlib Require Import ZArith Lia.
From stdpp Require Import base gmap list.
From S2P Require Import Prelude CellCodec CString Buffer Terminal Scroll.
Open Scope Z_scope.
Open Scope vga_scope.

Module Writer.
Import CellCodec.CellCodec CString.CString Buffer.Buffer Terminal.Terminal Scroll.Scroll.

(** The character ['\n']. *)
Definition NEWLINE : Z := 10.

Section WithGeometry.
Context {geom : Geometry}.

(** The step shared by both branches of [terminal_putchar]:
    [if (++terminal_row == VGA_HEIGHT) { terminal_row = VGA_HEIGHT-1;
    terminal_scroll_newline(); }]. *)
Definition next_row (st : term) : term :=
  let st := set_row st (size_t_of (terminal_row st + 1)) in
  if terminal_row st =? VGA_HEIGHT
  then terminal_scroll_newline (set_row st (VGA_HEIGHT - 1))
  else st.

(** [terminal_putchar(c)]. *)
Definition terminal_putchar (st : term) (c : Z) : term :=
  if c =? NEWLINE then
    set_column (next_row st) 0
  else
    let st := terminal_putentryat st c (terminal_color st) (terminal_column st) (terminal_row st) in
    let st := set_column st (size_t_of (terminal_column st + 1)) in
    if terminal_column st =? VGA_WIDTH
    then next_row (set_column st 0)
    else st.

(** The loop of [terminal_write]: [for (i = 0; i < size; i++)
    terminal_putchar(data[i]);], [n] iterations from index [i]. *)
Fixpoint terminal_write_loop (n : nat) (data : list Z) (i : Z) (st : term) : option term :=
  match n with
  | O => Some st
  | S n' =>
      match data !! Z.to_nat i with
      | None => None
      | Some c => terminal_write_loop n' data (i + 1) (terminal_putchar st c)
      end
  end.

(** [terminal_write(data, size)]. *)
Definition terminal_write (st : term) (data : list Z) (size : Z) : option term :=
  terminal_write_loop (Z.to_nat size) data 0 st.

(** [terminal_writestring(data)]: [terminal_write(data, strlen(data))]. *)
Definition terminal_writestring (st : term) (data : list Z) : option term :=
  strlen data ≫= terminal_write st data.

(** ** Lemmas on [next_row] *)

Lemma next_row_down st :
  0 <= terminal_row st -> terminal_row st + 1 < VGA_HEIGHT ->
  next_row st = set_row st (terminal_row st + 1).
Proof.
  intros H0 H1. pose proof VGA_area_small. pose proof VGA_WIDTH_pos.
  unfold next_row. simpl. rewrite size_t_small by nia.
  rewrite (proj2 (Z.eqb_neq _ _)) by lia. done.
Qed.

Lemma next_row_scroll st :
  terminal_row st = VGA_HEIGHT - 1 ->
  next_row st = terminal_scroll_newline st.
Proof.
  intros H. pose proof VGA_area_small. pose proof VGA_WIDTH_pos. pose proof VGA_HEIGHT_pos.
  unfold next_row. simpl. rewrite H, size_t_small by nia.
  rewrite Z.sub_add, Z.eqb_refl. unfold set_row. simpl. rewrite <- H. by destruct st.
Qed.

Lemma next_row_inv st : term_inv st -> term_inv (next_row st).
Proof.
  intros Hinv. pose proof (inv_row _ Hinv).
  destruct (Z.eq_dec (terminal_row st) (VGA_HEIGHT - 1)) as [Heq|Hne].
  - rewrite next_row_scroll by done. by apply terminal_scroll_newline_inv.
  - rewrite next_row_down by lia. destruct Hinv; split; simpl; try done. lia.
Qed.

Lemma next_row_frame st :
  term_inv st ->
  unchanged_outside (in_screen (terminal_buffer st)) (term_mem st) (term_mem (next_row st)).
Proof.
  intros Hinv. pose proof (inv_row _ Hinv). pose proof VGA_WIDTH_pos.
  destruct (Z.eq_dec (terminal_row st) (VGA_HEIGHT - 1)) as [Heq|Hne].
  - rewrite next_row_scroll by done.
    destruct (scroll_newline_shift_spec st) as (_ & _ & _ & _ & _ & Hframe).
    eapply unchanged_outside_weaken; [|exact Hframe]. intros a. apply in_cells_mono. nia.
  - rewrite next_row_down by lia. reflexivity.
Qed.

(** ** The two branches of [terminal_putchar] *)

Lemma terminal_putchar_newline st :
  term_inv st ->
  terminal_putchar st NEWLINE =
  set_column (if terminal_row st + 1 <? VGA_HEIGHT
              then set_row st (terminal_row st + 1)
              else terminal_scroll_newline st) 0.
Proof.
  intros Hinv. pose proof (inv_row _ Hinv). unfold terminal_putchar. rewrite Z.eqb_refl. f_equal.
  destruct (Z.ltb_spec (terminal_row st + 1) VGA_HEIGHT).
  - apply next_row_down; lia.
  - apply next_row_scroll. lia.
Qed.

Lemma terminal_putchar_char st c :
  c <> NEWLINE -> term_inv st ->
  let st1 := terminal_putentryat st c (terminal_color st) (terminal_column st) (terminal_row st) in
  terminal_putchar st c =
  if terminal_column st + 1 <? VGA_WIDTH
  then set_column st1 (terminal_column st + 1)
  else next_row (set_column st1 0).
Proof.
  intros Hc Hinv. pose proof (inv_column _ Hinv). pose proof VGA_area_small. pose proof VGA_HEIGHT_pos.
  cbn zeta. unfold terminal_putchar. rewrite (proj2 (Z.eqb_neq _ _) Hc). simpl.
  rewrite size_t_small by nia.
  destruct (Z.ltb_spec (terminal_column st + 1) VGA_WIDTH).
  - rewrite (proj2 (Z.eqb_neq _ _)) by lia. done.
  - replace (terminal_column st + 1) with VGA_WIDTH by lia. rewrite Z.eqb_refl. done.
Qed.

(** [terminal_putchar] keeps the terminal invariant: whatever the
    character, the cursor stays on the screen (column below
    [VGA_WIDTH], row below [VGA_HEIGHT]) and every cell stays a 16-bit
    value. *)
Lemma putchar_preserves_inv st c : term_inv st -> term_inv (terminal_putchar st c).
Proof.
  intros Hinv. pose proof (inv_row _ Hinv) as Hrow. pose proof (inv_column _ Hinv) as Hcol.
  pose proof VGA_WIDTH_pos. pose proof VGA_HEIGHT_pos.
  destruct (Z.eq_dec c NEWLINE) as [->|Hc].
  - rewrite terminal_putchar_newline by done.
    assert (Hn : term_inv (next_row st)) by (by apply next_row_inv).
    destruct (Z.ltb_spec (terminal_row st + 1) VGA_HEIGHT).
    + rewrite next_row_down in Hn by lia. destruct Hn; split; simpl in *; try done; lia.
    + rewrite next_row_scroll in Hn by lia. destruct Hn; split; simpl in *; try done; lia.
  - rewrite terminal_putchar_char by done. cbn zeta.
    assert (H1 := terminal_putentryat_inv st c (terminal_color st) (terminal_column st)
                    (terminal_row st) Hcol Hrow Hinv).
    destruct (Z.ltb_spec (terminal_column st + 1) VGA_WIDTH).
    + destruct H1; split; simpl in *; try done; lia.
    + apply next_row_inv. destruct H1; split; simpl in *; try done; lia.
Qed.

(** C1: [terminal_putchar] keeps the terminal invariant: whatever the
    character, the cursor stays on the screen (column below
    [VGA_WIDTH], row below [VGA_HEIGHT]) and every cell stays a 16-bit
    value. *)
Theorem terminal_putchar_inv st c : term_inv st -> term_inv (terminal_putchar st c).
Proof. apply putchar_preserves_inv. Qed.

(** [terminal_putchar] writes no memory outside the frame buffer
    [0xB8000 .. 0xB8000 + 2 * VGA_WIDTH * VGA_HEIGHT): from an
    initialised terminal, the API cannot write past the buffer. *)
Lemma putchar_writes_screen_only st c :
  term_inv st ->
  unchanged_outside (in_screen VGA_MEMORY) (term_mem st) (term_mem (terminal_putchar st c)).
Proof.
  intros Hinv. pose proof (inv_row _ Hinv) as Hrow. pose proof (inv_column _ Hinv) as Hcol.
  destruct (Z.eq_dec c NEWLINE) as [->|Hc].
  - unfold terminal_putchar. rewrite Z.eqb_refl. simpl.
    rewrite <- (inv_buffer _ Hinv). by apply next_row_frame.
  - rewrite terminal_putchar_char by done. cbn zeta.
    set (st1 := terminal_putentryat st c (terminal_color st) (terminal_column st) (terminal_row st)).
    destruct (terminal_putentryat_spec st c (terminal_color st) (terminal_column st)
                (terminal_row st) Hcol Hrow) as (_ & _ & _ & _ & _ & Hframe).
    fold st1 in Hframe. rewrite (inv_buffer _ Hinv) in Hframe.
    destruct (Z.ltb_spec (terminal_column st + 1) VGA_WIDTH); [exact Hframe|].
    assert (Hinv2 : term_inv (set_column st1 0)).
    { pose proof (terminal_putentryat_inv st c (terminal_color st) (terminal_column st)
                    (terminal_row st) Hcol Hrow Hinv) as Hinv1.
      destruct Hinv1; split; simpl in *; try done; lia. }
    etrans; [exact Hframe|].
    pose proof (next_row_frame _ Hinv2) as Hf. rewrite (inv_buffer _ Hinv2) in Hf. exact Hf.
Qed.

(** C5: [terminal_putchar] writes no memory outside the frame buffer
    [0xB8000 .. 0xB8000 + 2 * VGA_WIDTH * VGA_HEIGHT): from an
    initialised terminal, the API cannot write past the buffer. *)
Theorem terminal_putchar_in_bounds st c :
  term_inv st ->
  unchanged_outside (in_screen VGA_MEMORY) (term_mem st) (term_mem (terminal_putchar st c)).
Proof. apply putchar_writes_screen_only. Qed.

(** [terminal_putchar] never changes the colour. *)
Lemma terminal_putchar_color st c : terminal_color (terminal_putchar st c) = terminal_color st.
Proof.
  unfold terminal_putchar, next_row.
  repeat (case_match || simpl); done.
Qed.

Lemma foldl_putchar_color st cs : terminal_color (foldl terminal_putchar st cs) = terminal_color st.
Proof.
  revert st. induction cs as [|c cs IH]; intros st; simpl; [done|].
  by rewrite IH, terminal_putchar_color.
Qed.

(** ** Behaviour of [terminal_putchar] on each branch *)

(** The cells after writing [c] at the cursor. *)
Definition cells_after_put (st : term) (c x y : Z) : Z :=
  if decide (x = terminal_column st /\ y = terminal_row st)
  then vga_entry c (terminal_color st) else read_cell st x y.

Lemma putentryat_at_cursor_cells st c :
  term_inv st ->
  forall x y, 0 <= x < VGA_WIDTH -> 0 <= y < VGA_HEIGHT ->
  read_cell (terminal_putentryat st c (terminal_color st) (terminal_column st) (terminal_row st)) x y =
  cells_after_put st c x y.
Proof.
  intros Hinv x y Hx Hy. apply (terminal_putentryat_spec st c (terminal_color st)); try done.
  - apply Hinv.
  - apply Hinv.
Qed.

(** A character other than ['\n'] written before the last column
    goes into the cell under the cursor in the current colour, every
    other cell is unchanged, and the cursor moves one column right. *)
Lemma putchar_char_inline_spec st c :
  term_inv st -> c <> NEWLINE -> terminal_column st + 1 < VGA_WIDTH ->
  let st' := terminal_putchar st c in
  terminal_row st' = terminal_row st /\ terminal_column st' = terminal_column st + 1 /\
  terminal_color st' = terminal_color st /\
  (forall x y, 0 <= x < VGA_WIDTH -> 0 <= y < VGA_HEIGHT -> read_cell st' x y = cells_after_put st c x y).
Proof.
  intros Hinv Hc Hcol. cbn zeta. rewrite terminal_putchar_char by done. cbn zeta.
  rewrite (proj2 (Z.ltb_lt _ _) Hcol). repeat split.
  intros x y Hx Hy. by apply putentryat_at_cursor_cells.
Qed.

(** C9: a character other than ['\n'] written before the last column
    goes into the cell under the cursor in the current colour, every
    other cell is unchanged, and the cursor moves one column right. *)
Theorem terminal_putchar_char_inline st c :
  term_inv st -> c <> NEWLINE -> terminal_column st + 1 < VGA_WIDTH ->
  let st' := terminal_putchar st c in
  terminal_row st' = terminal_row st /\ terminal_column st' = terminal_column st + 1 /\
  terminal_color st' = terminal_color st /\
  (forall x y, 0 <= x < VGA_WIDTH -> 0 <= y < VGA_HEIGHT -> read_cell st' x y = cells_after_put st c x y).
Proof. apply putchar_char_inline_spec. Qed.

(** A character other than ['\n'] written in the last column of a
    row that is not the last row fills that cell and wraps the cursor
    to column 0 of the next row, without scrolling. *)
Lemma putchar_char_wrap_spec st c :
  term_inv st -> c <> NEWLINE -> terminal_column st = VGA_WIDTH - 1 ->
  terminal_row st + 1 < VGA_HEIGHT ->
  let st' := terminal_putchar st c in
  terminal_row st' = terminal_row st + 1 /\ terminal_column st' = 0 /\
  terminal_color st' = terminal_color st /\
  (forall x y, 0 <= x < VGA_WIDTH -> 0 <= y < VGA_HEIGHT -> read_cell st' x y = cells_after_put st c x y).
Proof.
  intros Hinv Hc Hcol Hrow. pose proof (inv_row _ Hinv). cbn zeta.
  rewrite terminal_putchar_char by done. cbn zeta.
  rewrite (proj2 (Z.ltb_ge _ _)) by lia. rewrite next_row_down by (simpl; lia).
  repeat split. intros x y Hx Hy. by apply putentryat_at_cursor_cells.
Qed.

(** C14: a character other than ['\n'] written in the last column of a
    row that is not the last row fills that cell and wraps the cursor
    to column 0 of the next row, without scrolling. *)
Theorem terminal_putchar_char_wrap st c :
  term_inv st -> c <> NEWLINE -> terminal_column st = VGA_WIDTH - 1 ->
  terminal_row st + 1 < VGA_HEIGHT ->
  let st' := terminal_putchar st c in
  terminal_row st' = terminal_row st + 1 /\ terminal_column st' = 0 /\
  terminal_color st' = terminal_color st /\
  (forall x y, 0 <= x < VGA_WIDTH -> 0 <= y < VGA_HEIGHT -> read_cell st' x y = cells_after_put st c x y).
Proof. apply putchar_char_wrap_spec. Qed.

(** ['\n'] on a row that is not the last moves the cursor to
    column 0 of the next row and writes no memory. *)
Lemma putchar_newline_down_spec st :
  term_inv st -> terminal_row st + 1 < VGA_HEIGHT ->
  let st' := terminal_putchar st NEWLINE in
  terminal_row st' = terminal_row st + 1 /\ terminal_column st' = 0 /\
  terminal_color st' = terminal_color st /\ term_mem st' = term_mem st.
Proof.
  intros Hinv Hrow. cbn zeta. rewrite terminal_putchar_newline by done.
  rewrite (proj2 (Z.ltb_lt _ _) Hrow). done.
Qed.

(** C15: ['\n'] on a row that is not the last moves the cursor to
    column 0 of the next row and writes no memory. *)
Theorem terminal_putchar_newline_down st :
  term_inv st -> terminal_row st + 1 < VGA_HEIGHT ->
  let st' := terminal_putchar st NEWLINE in
  terminal_row st' = terminal_row st + 1 /\ terminal_column st' = 0 /\
  terminal_color st' = terminal_color st /\ term_mem st' = term_mem st.
Proof. apply putchar_newline_down_spec. Qed.

Lemma read_cell_newline_down st :
  term_inv st -> terminal_row st + 1 < VGA_HEIGHT ->
  read_cell (terminal_putchar st NEWLINE) = read_cell st.
Proof. intros Hinv Hrow. rewrite terminal_putchar_newline by done. simpl_cmp. done. Qed.

(** When the cursor would move below the last row (['\n'] on the
    last row, or a character in the last cell), [terminal_putchar]
    first writes the character (if any), then scrolls once, and leaves
    the cursor at column 0 of the last row. *)
Lemma putchar_scroll_spec st c :
  term_inv st -> terminal_row st = VGA_HEIGHT - 1 ->
  c = NEWLINE \/ terminal_column st = VGA_WIDTH - 1 ->
  terminal_putchar st c =
  terminal_scroll_newline (set_column
    (if c =? NEWLINE then st
     else terminal_putentryat st c (terminal_color st) (terminal_column st) (terminal_row st)) 0).
Proof.
  intros Hinv Hrow Hc. destruct (Z.eq_dec c NEWLINE) as [->|Hne].
  - rewrite terminal_putchar_newline, Z.eqb_refl by done.
    rewrite (proj2 (Z.ltb_ge _ _)) by lia. done.
  - destruct Hc as [|Hcol]; [done|]. rewrite terminal_putchar_char by done. cbn zeta.
    rewrite (proj2 (Z.eqb_neq _ _) Hne), (proj2 (Z.ltb_ge _ _)) by lia.
    apply next_row_scroll. done.
Qed.

(** C16: when the cursor would move below the last row (['\n'] on the
    last row, or a character in the last cell), [terminal_putchar]
    first writes the character (if any), then scrolls once, and leaves
    the cursor at column 0 of the last row. *)
Theorem terminal_putchar_scrolls st c :
  term_inv st -> terminal_row st = VGA_HEIGHT - 1 ->
  c = NEWLINE \/ terminal_column st = VGA_WIDTH - 1 ->
  terminal_putchar st c =
  terminal_scroll_newline (set_column
    (if c =? NEWLINE then st
     else terminal_putentryat st c (terminal_color st) (terminal_column st) (terminal_row st)) 0).
Proof. apply putchar_scroll_spec. Qed.

(** ** [terminal_write] and [terminal_writestring] *)

Lemma terminal_write_loop_fold n data i st :
  0 <= i -> (Z.to_nat i + n <= length data)%nat ->
  terminal_write_loop n data i st =
  Some (foldl terminal_putchar st (take n (drop (Z.to_nat i) data))).
Proof.
  revert i st. induction n as [|n IH]; intros i st Hi Hn; [done|].
  simpl. destruct (data !! Z.to_nat i) as [c|] eqn:Hc.
  - rewrite IH by lia. rewrite (drop_S data c (Z.to_nat i)) by done. simpl.
    by replace (Z.to_nat (i + 1)) with (S (Z.to_nat i)) by lia.
  - apply lookup_ge_None in Hc. lia.
Qed.

Lemma terminal_write_loop_past_end n data i st :
  0 <= i -> (Z.to_nat i <= length data < Z.to_nat i + n)%nat ->
  terminal_write_loop n data i st = None.
Proof.
  revert i st. induction n as [|n IH]; intros i st Hi Hn; [lia|].
  simpl. destruct (data !! Z.to_nat i) as [c|] eqn:Hc; [|done].
  apply lookup_lt_Some in Hc. apply IH; lia.
Qed.

(** [terminal_write(data, size)] with [size] at most the length of
    the array is [terminal_putchar] applied to [data[0]], ...,
    [data[size-1]] in order. *)
Lemma write_as_fold st data size :
  0 <= size <= Z.of_nat (length data) ->
  terminal_write st data size = Some (foldl terminal_putchar st (take (Z.to_nat size) data)).
Proof. intros Hs. unfold terminal_write. rewrite terminal_write_loop_fold by lia. done. Qed.

(** [terminal_write(data, size)] with [size] beyond the array reads
    past its end: the outcome is undefined behaviour ([None]). *)
Lemma write_reads_past_end st data size :
  Z.of_nat (length data) < size -> terminal_write st data size = None.
Proof. intros Hs. unfold terminal_write. apply terminal_write_loop_past_end; lia. Qed.

(** [terminal_writestring] on a string literal writes exactly its
    characters, without the terminating NUL, and never reads past the
    literal. *)
Lemma writestring_literal_fold st s :
  0 ∉ s -> terminal_writestring st (c_string_literal s) = Some (foldl terminal_putchar st s).
Proof.
  intros Hs. unfold terminal_writestring. rewrite strlen_c_string_literal by done. simpl.
  rewrite write_as_fold by (unfold c_string_literal; rewrite length_app; simpl; lia).
  rewrite Nat2Z.id. unfold c_string_literal. by rewrite take_app_length.
Qed.

(** C33: [terminal_writestring] on a string literal writes exactly its
    characters, without the terminating NUL, and never reads past the
    literal. *)
Theorem terminal_writestring_literal st s :
  0 ∉ s -> terminal_writestring st (c_string_literal s) = Some (foldl terminal_putchar st s).
Proof. apply writestring_literal_fold. Qed.

(** C32: [terminal_write(data, size)] with [size] at most the length of
    the array is [terminal_putchar] applied to [data[0]], ...,
    [data[size-1]] in order. *)
Theorem terminal_write_fold st data size :
  0 <= size <= Z.of_nat (length data) ->
  terminal_write st data size = Some (foldl terminal_putchar st (take (Z.to_nat size) data)).
Proof. apply write_as_fold. Qed.

(** The invariant across a sequence of characters. *)
Lemma foldl_putchar_inv st cs : term_inv st -> term_inv (foldl terminal_putchar st cs).
Proof.
  revert st. induction cs as [|c cs IH]; intros st Hinv; simpl; [done|].
  apply IH. by apply putchar_preserves_inv.
Qed.

Lemma terminal_write_inv st data size st' :
  term_inv st -> terminal_write st data size = Some st' -> term_inv st'.
Proof.
  intros Hinv Hw. destruct (Z_le_gt_dec size (Z.of_nat (length data))) as [Hle|Hgt].
  - destruct (Z_le_gt_dec 0 size) as [H0|H0].
    + rewrite write_as_fold in Hw by lia. injection Hw as <-. by apply foldl_putchar_inv.
    + unfold terminal_write in Hw. replace (Z.to_nat size) with O in Hw by lia.
      injection Hw as <-. done.
  - by rewrite write_reads_past_end in Hw by lia.
Qed.

Lemma terminal_writestring_inv st data st' :
  term_inv st -> terminal_writestring st data = Some st' -> term_inv st'.
Proof.
  intros Hinv Hw. unfold terminal_writestring in Hw.
  destruct (strlen data) as [n|]; simpl in Hw; [|done]. by eapply terminal_write_inv.
Qed.

End WithGeometry.

(** ** The theorems at concrete inputs, on the 80x25 screen *)

(** The screen right after [terminal_initialize], from an empty memory. *)
Definition fresh : term := terminal_initialize (boot_state ∅).

Lemma fresh_inv : term_inv fresh.
Proof. decide_by_eval. Qed.

Lemma terminal_putchar_inv_witness : term_inv fresh /\ term_inv (terminal_putchar fresh 65).
Proof.
  assert (H : term_inv fresh) by decide_by_eval.
  split; [exact H|]. exact (terminal_putchar_inv fresh 65 H).
Defined.

Lemma terminal_putchar_in_bounds_witness :
  term_inv fresh /\
  unchanged_outside (in_screen VGA_MEMORY) (term_mem fresh) (term_mem (terminal_putchar fresh 65)).
Proof.
  assert (H : term_inv fresh) by decide_by_eval.
  split; [exact H|]. exact (terminal_putchar_in_bounds fresh 65 H).
Defined.

Lemma terminal_write_fold_witness :
  0 <= 2 <= Z.of_nat (length [72; 105]) /\
  terminal_write fresh [72; 105] 2 = Some (foldl terminal_putchar fresh [72; 105]).
Proof.
  assert (H : 0 <= 2 <= Z.of_nat (length [72; 105])) by (simpl; lia).
  split; [exact H|]. exact (terminal_write_fold fresh [72; 105] 2 H).
Defined.

Lemma terminal_writestring_literal_witness :
  (0 ∉ [72; 105; 10]) /\
  terminal_writestring fresh (c_string_literal [72; 105; 10]) =
  Some (foldl terminal_putchar fresh [72; 105; 10]).
Proof.
  assert (H : 0 ∉ [72; 105; 10]) by decide_by_eval.
  split; [exact H|]. exact (terminal_writestring_literal fresh [72; 105; 10] H).
Defined.

Lemma terminal_putchar_char_inline_witness :
  (term_inv fresh /\ 72 <> NEWLINE /\ terminal_column fresh + 1 < VGA_WIDTH) /\
  terminal_column (terminal_putchar fresh 72) = 1.
Proof.
  assert (H1 : term_inv fresh) by decide_by_eval.
  assert (H2 : 72 <> NEWLINE) by discriminate.
  assert (H3 : terminal_column fresh + 1 < VGA_WIDTH) by (vm_compute; reflexivity).
  split; [done|]. exact (proj1 (proj2 (terminal_putchar_char_inline fresh 72 H1 H2 H3))).
Defined.

Lemma terminal_putchar_char_wrap_witness :
  let st := set_column fresh 79 in
  (term_inv st /\ 72 <> NEWLINE /\ terminal_column st = VGA_WIDTH - 1 /\
   terminal_row st + 1 < VGA_HEIGHT) /\
  terminal_row (terminal_putchar st 72) = 1.
Proof.
  intros st.
  assert (H1 : term_inv st) by decide_by_eval.
  assert (H2 : 72 <> NEWLINE) by discriminate.
  assert (H3 : terminal_column st = VGA_WIDTH - 1) by reflexivity.
  assert (H4 : terminal_row st + 1 < VGA_HEIGHT) by (vm_compute; reflexivity).
  split; [done|]. exact (proj1 (terminal_putchar_char_wrap st 72 H1 H2 H3 H4)).
Defined.

Lemma terminal_putchar_newline_down_witness :
  (term_inv fresh /\ terminal_row fresh + 1 < VGA_HEIGHT) /\
  terminal_row (terminal_putchar fresh NEWLINE) = 1.
Proof.
  assert (H1 : term_inv fresh) by decide_by_eval.
  assert (H2 : terminal_row fresh + 1 < VGA_HEIGHT) by (vm_compute; reflexivity).
  split; [done|]. exact (proj1 (terminal_putchar_newline_down fresh H1 H2)).
Defined.

Lemma terminal_putchar_scrolls_witness :
  let st := set_row fresh 24 in
  (term_inv st /\ terminal_row st = VGA_HEIGHT - 1 /\
   (NEWLINE = NEWLINE \/ terminal_column st = VGA_WIDTH - 1)) /\
  terminal_putchar st NEWLINE = terminal_scroll_newline (set_column st 0).
Proof.
  intros st.
  assert (H1 : term_inv st) by decide_by_eval.
  assert (H2 : terminal_row st = VGA_HEIGHT - 1) by reflexivity.
  assert (H3 : NEWLINE = NEWLINE \/ terminal_column st = VGA_WIDTH - 1) by (left; reflexivity).
  split; [done|]. exact (terminal_putchar_scrolls st NEWLINE H1 H2 H3).
Defined.

End Writer.
