(* ===== verification/Screen.v ===== *)
(** * The abstract screen and the refinement of the writer

    An abstract specification of the terminal, independent of memory
    and addresses: the screen is a list of [VGA_HEIGHT] rows of
    [VGA_WIDTH] cells, with the cursor and the current attribute.
    [put_char] is the line discipline of the specification (section 4.4)
    on that grid, with the scroll the code performs ([scroll_up]: the
    rows move up and the last row is kept).

    [abs] reads the grid out of the memory of a concrete terminal
    state.  The refinement theorem [terminal_putchar_refines] shows that
    every [terminal_putchar] step of the memory model is a [put_char]
    step of the abstract screen; it extends to [terminal_write] and
    [terminal_writestring].  The abstract model has no addresses, so the
    behavioural theorems of the specification (section 8) are proved on
    it and transferred. *)

From Stdlib Require Import ZArith Lia.
From stdpp Require Import base gmap list.
From S2P Require Import Prelude CellCodec CString Buffer Terminal Scroll Writer.
Open Scope Z_scope.
Open Scope vga_scope.

Module Screen.
Import CellCodec.CellCodec CString.CString Buffer.Buffer Terminal.Terminal Scroll.Scroll Writer.Writer.

(** The abstract screen: rows of cells, cursor (x, y), attribute. *)
Record screen := mk_screen {
  grid : list (list Z);
  cur_x : Z;
  cur_y : Z;
  attr : Z
}.

Section WithGeometry.
Context {geom : Geometry}.

(** Set the cell (x, y) of a grid. *)
Definition put_cell (g : list (list Z)) (x y v : Z) : list (list Z) :=
  alter (fun row => <[Z.to_nat x := v]> row) (Z.to_nat y) g.

(** Scrolling as the code does it: the first row is lost, every other
    row moves up, the last row stays. *)
Definition scroll_up (g : list (list Z)) : list (list Z) :=
  drop 1 g ++ [default [] (last g)].

(** Moving to the start of the next line, scrolling at the bottom. *)
Definition line_feed (s : screen) : screen :=
  if cur_y s + 1 <? VGA_HEIGHT
  then mk_screen (grid s) 0 (cur_y s + 1) (attr s)
  else mk_screen (scroll_up (grid s)) 0 (cur_y s) (attr s).

(** The line discipline: a newline feeds a line; any other character is
    stored under the cursor in the current attribute and the cursor
    advances, wrapping at the end of a line. *)
Definition put_char (s : screen) (c : Z) : screen :=
  if c =? NEWLINE then line_feed s
  else
    let s := mk_screen (put_cell (grid s) (cur_x s) (cur_y s) (vga_entry c (attr s)))
                       (cur_x s) (cur_y s) (attr s) in
    if cur_x s + 1 <? VGA_WIDTH
    then mk_screen (grid s) (cur_x s + 1) (cur_y s) (attr s)
    else line_feed s.

(** The grid whose cell (x, y) is [f x y]. *)
Definition row_of (f : Z -> Z -> Z) (y : Z) : list Z := (fun x => f x y) <$> seqZ 0 VGA_WIDTH.
Definition grid_of (f : Z -> Z -> Z) : list (list Z) := row_of f <$> seqZ 0 VGA_HEIGHT.

(** The abstraction of a concrete terminal state. *)
Definition abs (st : term) : screen :=
  mk_screen (grid_of (read_cell st)) (terminal_column st) (terminal_row st) (terminal_color st).

(** ** Lemmas on grids *)

Lemma row_of_lookup f y x : row_of f y !! x =
  if Z.of_nat x <? VGA_WIDTH then Some (f (Z.of_nat x) y) else None.
Proof.
  unfold row_of. rewrite list_lookup_fmap. destruct (Z.ltb_spec (Z.of_nat x) VGA_WIDTH).
  - rewrite lookup_seqZ_lt by done. done.
  - rewrite lookup_seqZ_ge by done. done.
Qed.

Lemma grid_of_lookup f y : grid_of f !! y =
  if Z.of_nat y <? VGA_HEIGHT then Some (row_of f (Z.of_nat y)) else None.
Proof.
  unfold grid_of. rewrite list_lookup_fmap. destruct (Z.ltb_spec (Z.of_nat y) VGA_HEIGHT).
  - rewrite lookup_seqZ_lt by done. done.
  - rewrite lookup_seqZ_ge by done. done.
Qed.

Lemma length_row_of f y : length (row_of f y) = Z.to_nat VGA_WIDTH.
Proof. unfold row_of. by rewrite length_fmap, length_seqZ. Qed.

Lemma length_grid_of f : length (grid_of f) = Z.to_nat VGA_HEIGHT.
Proof. unfold grid_of. by rewrite length_fmap, length_seqZ. Qed.

Lemma row_of_ext f g y y' :
  (forall x, 0 <= x < VGA_WIDTH -> f x y = g x y') -> row_of f y = row_of g y'.
Proof.
  intros Hfg. apply list_eq. intros x. rewrite !row_of_lookup.
  destruct (Z.ltb_spec (Z.of_nat x) VGA_WIDTH); [|done]. f_equal. apply Hfg. lia.
Qed.

(** Two grids are equal when their cells agree on the screen. *)
Lemma grid_of_ext f g :
  (forall x y, 0 <= x < VGA_WIDTH -> 0 <= y < VGA_HEIGHT -> f x y = g x y) ->
  grid_of f = grid_of g.
Proof.
  intros Hfg. apply list_eq. intros y. rewrite !grid_of_lookup.
  destruct (Z.ltb_spec (Z.of_nat y) VGA_HEIGHT); [|done]. f_equal.
  apply row_of_ext. intros x Hx. apply Hfg; lia.
Qed.

(** Setting one cell of a grid. *)
Lemma put_cell_grid_of f x y v :
  0 <= x < VGA_WIDTH -> 0 <= y < VGA_HEIGHT ->
  put_cell (grid_of f) x y v =
  grid_of (fun x' y' => if decide (x' = x /\ y' = y) then v else f x' y').
Proof.
  intros Hx Hy. unfold put_cell. apply list_eq. intros i.
  destruct (decide (i = Z.to_nat y)) as [->|Hne].
  - rewrite list_lookup_alter_eq, !grid_of_lookup, Z2Nat.id by lia.
    simpl_cmp. simpl. f_equal.
    apply list_eq. intros j. rewrite list_lookup_insert, !row_of_lookup, length_row_of.
    case_decide as Hj.
    + destruct Hj as [<- _]. rewrite Z2Nat.id by lia.
      simpl_cmp. rewrite decide_True by lia. done.
    + destruct (Z.ltb_spec (Z.of_nat j) VGA_WIDTH); [|done]. rewrite decide_False by lia. done.
  - rewrite list_lookup_alter_ne by done. rewrite !grid_of_lookup.
    destruct (Z.of_nat i <? VGA_HEIGHT); [|done]. f_equal.
    apply row_of_ext. intros x' _. rewrite decide_False by lia. done.
Qed.

(** Scrolling a grid moves row [y + 1] to row [y] and keeps the last. *)
Lemma scroll_up_grid_of f :
  scroll_up (grid_of f) =
  grid_of (fun x y => if decide (y < VGA_HEIGHT - 1) then f x (y + 1) else f x y).
Proof.
  pose proof VGA_HEIGHT_pos. unfold scroll_up. apply list_eq. intros i.
  assert (Hlen : length (drop 1 (grid_of f)) = Z.to_nat (VGA_HEIGHT - 1)).
  { rewrite length_drop, length_grid_of. lia. }
  destruct (decide (i < Z.to_nat (VGA_HEIGHT - 1))%nat) as [Hi|Hi].
  - rewrite lookup_app_l, lookup_drop, !grid_of_lookup by lia.
    simpl_cmp. f_equal.
    apply row_of_ext. intros x _. rewrite decide_True by lia. f_equal. lia.
  - rewrite lookup_app_r by lia. rewrite Hlen, grid_of_lookup.
    destruct (decide (i = Z.to_nat (VGA_HEIGHT - 1))) as [->|Hne].
    + rewrite Nat.sub_diag. simpl. simpl_cmp.
      rewrite last_lookup, length_grid_of, grid_of_lookup.
      simpl_cmp. simpl. f_equal.
      apply row_of_ext. intros x _. rewrite decide_False by lia. f_equal. lia.
    + simpl_cmp.
      rewrite lookup_ge_None_2; [done|simpl; lia].
Qed.

(** ** The refinement *)

Lemma abs_set_column st c :
  abs (set_column st c) = mk_screen (grid_of (read_cell st)) c (terminal_row st) (terminal_color st).
Proof. done. Qed.

Lemma abs_set_row st r :
  abs (set_row st r) = mk_screen (grid_of (read_cell st)) (terminal_column st) r (terminal_color st).
Proof. done. Qed.

Lemma read_cell_set_column st c : read_cell (set_column st c) = read_cell st.
Proof. done. Qed.

(** Writing at the cursor is [put_cell] on the abstract grid. *)
Lemma grid_putentryat st c :
  term_inv st ->
  grid_of (read_cell (terminal_putentryat st c (terminal_color st) (terminal_column st) (terminal_row st))) =
  put_cell (grid_of (read_cell st)) (terminal_column st) (terminal_row st) (vga_entry c (terminal_color st)).
Proof.
  intros Hinv. rewrite put_cell_grid_of by apply Hinv.
  apply grid_of_ext. intros x y Hx Hy. by apply putentryat_at_cursor_cells.
Qed.

(** [terminal_scroll_newline] is [scroll_up] on the abstract grid. *)
Lemma grid_scroll st :
  grid_of (read_cell (terminal_scroll_newline st)) = scroll_up (grid_of (read_cell st)).
Proof.
  destruct (scroll_newline_shift_spec st) as (_ & _ & _ & _ & Hrows & _).
  rewrite scroll_up_grid_of. apply grid_of_ext. intros x y Hx Hy. case_decide.
  - apply Hrows; lia.
  - replace y with (VGA_HEIGHT - 1) by lia. by apply scroll_newline_keeps_last_row.
Qed.

Lemma abs_scroll st :
  abs (terminal_scroll_newline st) =
  mk_screen (scroll_up (grid_of (read_cell st))) (terminal_column st) (terminal_row st) (terminal_color st).
Proof. unfold abs. rewrite grid_scroll. done. Qed.

(** Refinement of the line discipline: from any state satisfying
    the invariant, the abstract screen of [terminal_putchar st c] is the
    abstract [put_char] step from the abstract screen of [st], for every
    character [c]; the memory model implements the specification's
    line discipline (with the code's scroll). *)
Lemma putchar_refines_step st c :
  term_inv st -> abs (terminal_putchar st c) = put_char (abs st) c.
Proof.
  intros Hinv. pose proof (inv_row _ Hinv). pose proof (inv_column _ Hinv).
  unfold put_char, line_feed. cbn [grid cur_x cur_y attr abs].
  destruct (Z.eq_dec c NEWLINE) as [->|Hc].
  - rewrite terminal_putchar_newline, Z.eqb_refl by done.
    destruct (Z.ltb_spec (terminal_row st + 1) VGA_HEIGHT); [done|].
    rewrite abs_set_column, grid_scroll. done.
  - rewrite terminal_putchar_char by done. cbn zeta. simpl_cmp. cbn [grid cur_x cur_y attr].
    destruct (Z.ltb_spec (terminal_column st + 1) VGA_WIDTH).
    + by rewrite abs_set_column, grid_putentryat.
    + destruct (Z.ltb_spec (terminal_row st + 1) VGA_HEIGHT).
      * rewrite next_row_down by (simpl; lia).
        by rewrite abs_set_row, read_cell_set_column, grid_putentryat.
      * rewrite next_row_scroll by (simpl; lia).
        by rewrite abs_scroll, read_cell_set_column, grid_putentryat.
Qed.

(** C3: refinement of the line discipline: from any state satisfying
    the invariant, the abstract screen of [terminal_putchar st c] is the
    abstract [put_char] step from the abstract screen of [st], for every
    character [c]; the memory model implements the specification's
    line discipline (with the code's scroll). *)
Theorem terminal_putchar_refines st c :
  term_inv st -> abs (terminal_putchar st c) = put_char (abs st) c.
Proof. apply putchar_refines_step. Qed.

Lemma foldl_putchar_refines st cs :
  term_inv st -> abs (foldl terminal_putchar st cs) = foldl put_char (abs st) cs.
Proof.
  revert st. induction cs as [|c cs IH]; intros st Hinv; simpl; [done|].
  rewrite IH by (by apply putchar_preserves_inv). by rewrite putchar_refines_step.
Qed.

(** C26: the refinement extended to whole writes: when
    [terminal_writestring] returns, its abstract screen is the abstract
    line discipline applied to the characters before the first NUL. *)
Theorem terminal_writestring_refines st data st' :
  term_inv st -> terminal_writestring st data = Some st' ->
  exists n, strlen data = Some n /\
            abs st' = foldl put_char (abs st) (take (Z.to_nat n) data).
Proof.
  intros Hinv Hw. unfold terminal_writestring in Hw.
  destruct (strlen data) as [n|] eqn:Hn; simpl in Hw; [|done].
  exists n. split; [done|]. apply strlen_characterisation in Hn as (Hn0 & Hnul & _).
  apply lookup_lt_Some in Hnul.
  rewrite write_as_fold in Hw by lia. injection Hw as <-.
  by apply foldl_putchar_refines.
Qed.

End WithGeometry.

Lemma terminal_putchar_refines_witness :
  term_inv fresh /\ abs (terminal_putchar fresh 72) = put_char (abs fresh) 72.
Proof.
  assert (H : term_inv fresh) by decide_by_eval.
  split; [exact H|]. exact (terminal_putchar_refines fresh 72 H).
Defined.

Lemma terminal_writestring_refines_witness :
  let lit := c_string_literal [72; 105; 10] in
  (term_inv fresh /\
   terminal_writestring fresh lit = Some (foldl terminal_putchar fresh [72; 105; 10])) /\
  exists n, strlen lit = Some n /\
    abs (foldl terminal_putchar fresh [72; 105; 10]) = foldl put_char (abs fresh) (take (Z.to_nat n) lit).
Proof.
  intros lit.
  assert (H1 : term_inv fresh) by decide_by_eval.
  assert (H2 : terminal_writestring fresh lit = Some (foldl terminal_putchar fresh [72; 105; 10]))
    by (vm_compute; reflexivity).
  split; [split; [exact H1|exact H2]|]. exact (terminal_writestring_refines fresh lit _ H1 H2).
Defined.

End Screen.
