(* ===== verification/Api.v ===== *)
(** * The public interface as a state machine

    The operations the terminal offers its callers (specification
    section 6: [terminal_initialize], [terminal_setcolor],
    [terminal_putchar], [terminal_write], [terminal_writestring]) are the
    labels of a step relation on the terminal state.  A state is
    reachable when it is produced by [terminal_initialize] followed by
    any sequence of calls; the specification requires initialisation
    first.  By rule induction on reachability, every reachable state
    satisfies the terminal invariant, and no call made from a reachable
    state writes memory outside the frame buffer. *)

From Stdlib Require Import ZArith Lia.
From stdpp Require Import base gmap list.
From S2P Require Import Prelude CellCodec CString Buffer Terminal Scroll Writer.
Open Scope Z_scope.
Open Scope vga_scope.

Module Api.
Import CellCodec.CellCodec CString.CString Buffer.Buffer Terminal.Terminal Scroll.Scroll Writer.Writer.

(** A call of the public interface, with its arguments. *)
Inductive api_call : Type :=
| Initialize
| SetColor (color : Z)
| PutChar (c : Z)
| Write (data : list Z) (size : Z)
| WriteString (data : list Z).

Section WithGeometry.
Context {geom : Geometry}.

(** The effect of one call; [None] is undefined behaviour (a read past
    the caller's array).  The arguments are converted to the parameter
    types as at a C call: [char c], [size_t size], and the elements of a
    [const char *] array are [char]s. *)
Definition api_exec (st : term) (call : api_call) : option term :=
  match call with
  | Initialize => Some (terminal_initialize st)
  | SetColor color => Some (terminal_setcolor st color)
  | PutChar c => Some (terminal_putchar st (schar c))
  | Write data size => terminal_write st (schar <$> data) (size_t_of size)
  | WriteString data => terminal_writestring st (schar <$> data)
  end.

Inductive api_step : term -> api_call -> term -> Prop :=
| api_step_intro st call st' : api_exec st call = Some st' -> api_step st call st'.

(** The states reachable from an initialisation, whatever the state and
    memory before it. *)
Inductive reachable : term -> Prop :=
| reachable_init st0 : reachable (terminal_initialize st0)
| reachable_step st call st' : reachable st -> api_step st call st' -> reachable st'.

#[local] Hint Constructors api_step reachable : vga.

(** ** Lemmas *)

(** Every call keeps the invariant. *)
Lemma api_step_inv st call st' : term_inv st -> api_step st call st' -> term_inv st'.
Proof.
  intros Hinv Hstep. inversion Hstep as [? ? ? Hexec]; subst.
  destruct call; simpl in Hexec; try injection Hexec as <-.
  - apply initialize_establishes_inv.
  - by apply terminal_setcolor_inv.
  - by apply putchar_preserves_inv.
  - by eapply terminal_write_inv.
  - by eapply terminal_writestring_inv.
Qed.

(** A sequence of characters from an initialised state writes only the
    frame buffer. *)
Lemma foldl_putchar_in_bounds st cs :
  term_inv st ->
  unchanged_outside (in_screen VGA_MEMORY) (term_mem st) (term_mem (foldl terminal_putchar st cs)).
Proof.
  revert st. induction cs as [|c cs IH]; intros st Hinv; simpl; [reflexivity|].
  etrans; [by apply putchar_writes_screen_only|]. apply IH. by apply putchar_preserves_inv.
Qed.

Lemma terminal_write_in_bounds st data size st' :
  term_inv st -> terminal_write st data size = Some st' ->
  unchanged_outside (in_screen VGA_MEMORY) (term_mem st) (term_mem st').
Proof.
  intros Hinv Hw. destruct (Z_le_gt_dec size (Z.of_nat (length data))) as [Hle|Hgt].
  - destruct (Z_le_gt_dec 0 size) as [H0|H0].
    + rewrite write_as_fold in Hw by lia. injection Hw as <-. by apply foldl_putchar_in_bounds.
    + unfold terminal_write in Hw. replace (Z.to_nat size) with O in Hw by lia.
      injection Hw as <-. reflexivity.
  - by rewrite write_reads_past_end in Hw by lia.
Qed.

(** C7: every reachable state satisfies the terminal invariant: the
    cursor is on the screen, the colour is a byte, the buffer is the
    frame buffer and every cell is a 16-bit value (rule induction on
    reachability). *)
Theorem reachable_inv st : reachable st -> term_inv st.
Proof.
  induction 1 as [st0|st call st' _ IH Hstep].
  - apply initialize_establishes_inv.
  - by apply (api_step_inv st call).
Qed.

(** C11: no call of the interface made from a state satisfying the
    invariant (in particular, from a reachable state) writes
    memory outside the frame buffer [0xB8000 .. 0xB8000 + 2 * W * H). *)
Theorem api_step_in_bounds st call st' :
  term_inv st -> api_step st call st' ->
  unchanged_outside (in_screen VGA_MEMORY) (term_mem st) (term_mem st').
Proof.
  intros Hinv Hstep. inversion Hstep as [? ? ? Hexec]; subst.
  destruct call; simpl in Hexec; try injection Hexec as <-.
  - destruct (initialize_fills_screen st) as (_ & _ & _ & _ & _ & Hframe). exact Hframe.
  - reflexivity.
  - by apply putchar_writes_screen_only.
  - by eapply terminal_write_in_bounds.
  - unfold terminal_writestring in Hexec. destruct (strlen (schar <$> data)); simpl in Hexec; [|done].
    by eapply terminal_write_in_bounds.
Qed.

End WithGeometry.

Lemma reachable_inv_witness :
  let st := terminal_putchar fresh 72 in reachable st /\ term_inv st.
Proof.
  intros st.
  assert (H : reachable st).
  { apply (reachable_step fresh (PutChar 72)); [apply reachable_init|].
    constructor. reflexivity. }
  split; [exact H|]. exact (reachable_inv st H).
Defined.

Lemma api_step_in_bounds_witness :
  let lit := c_string_literal [72; 105; 10] in
  let st' := foldl terminal_putchar fresh [72; 105; 10] in
  (term_inv fresh /\ api_step fresh (WriteString lit) st') /\
  unchanged_outside (in_screen VGA_MEMORY) (term_mem fresh) (term_mem st').
Proof.
  intros lit st'.
  assert (H1 : term_inv fresh) by decide_by_eval.
  assert (H2 : api_step fresh (WriteString lit) st') by (constructor; vm_compute; reflexivity).
  split; [split; [exact H1|exact H2]|]. exact (api_step_in_bounds fresh _ st' H1 H2).
Defined.

End Api.
