(* ===== verification/Interface.v ===== *)
(** * The public interface refines an abstract terminal

    The specification's interface (section 6) as an abstract machine on
    the [screen] of [Screen]: [screen_exec] gives the effect of each call
    of [Api.api_call] without memory or addresses.  [initialize()] gives
    the blank screen, [set_color] replaces the attribute, [put_char] is
    the line discipline, [write] folds it over the first [length] bytes,
    and [write_string] folds it over the bytes before the first NUL.  A
    call whose array is too short is undefined ([None]), as in the code.

    [api_exec_refines] shows that every call of the memory model, from a
    state satisfying the invariant, is observed through [abs] as the
    abstract call, undefined exactly when the abstract call is.
    [api_run_refines] extends this to any sequence of calls after
    [terminal_initialize], from any state and memory before it.
    [api_exec_none] characterises the undefined calls: [call_ub] holds
    of a call exactly when it reads past the caller's array. *)

From Stdlib Require Import ZArith Lia.
From stdpp Require Import base gmap list.
From S2P Require Import Prelude CellCodec CString Buffer Terminal Writer Screen Api.
Open Scope Z_scope.
Open Scope vga_scope.

Module Interface.
Import CellCodec.CellCodec CString.CString Buffer.Buffer Terminal.Terminal Writer.Writer.
Import Screen.Screen Api.Api.

Section WithGeometry.
Context {geom : Geometry}.

(** The screen after [initialize()]: spaces in the default attribute,
    the cursor at (0, 0). *)
Definition initial_screen : screen :=
  mk_screen (grid_of (fun _ _ => vga_entry SPACE default_color)) 0 0 default_color.

(** [write(bytes, length)]: the line discipline over the first [length]
    bytes; a [length] beyond the bytes is undefined. *)
Definition screen_write (s : screen) (data : list Z) (size : Z) : option screen :=
  if bool_decide (size <= Z.of_nat (length data))
  then Some (foldl put_char s (take (Z.to_nat size) data))
  else None.

(** One call of the interface on the abstract screen, with the argument
    conversions of the C call. *)
Definition screen_exec (s : screen) (call : api_call) : option screen :=
  match call with
  | Initialize => Some initial_screen
  | SetColor color => Some (mk_screen (grid s) (cur_x s) (cur_y s) (uint8 color))
  | PutChar c => Some (put_char s (schar c))
  | Write data size => screen_write s (schar <$> data) (size_t_of size)
  | WriteString data =>
      let data := schar <$> data in
      (fun n => foldl put_char s (take n data)) <$> first_nul data
  end.

(** The calls whose behaviour is undefined: a [write] whose [length]
    goes past the end of its array, and a [write_string] whose array
    holds no NUL.  Every other call is defined. *)
Definition call_ub (call : api_call) : bool :=
  match call with
  | Write data size => bool_decide (Z.of_nat (length data) < size_t_of size)
  | WriteString data => bool_decide (0 ∉ schar <$> data)
  | _ => false
  end.

(** A sequence of calls, stopping at the first undefined one. *)
Fixpoint api_run (st : term) (calls : list api_call) : option term :=
  match calls with
  | [] => Some st
  | call :: calls => api_exec st call ≫= fun st' => api_run st' calls
  end.

Fixpoint screen_run (s : screen) (calls : list api_call) : option screen :=
  match calls with
  | [] => Some s
  | call :: calls => screen_exec s call ≫= fun s' => screen_run s' calls
  end.

(** ** Lemmas *)

Lemma abs_initialize st : abs (terminal_initialize st) = initial_screen.
Proof.
  destruct (initialize_fills_screen st) as (Hr & Hc & Hcol & _ & Hcells & _).
  unfold abs, initial_screen. rewrite Hr, Hc, Hcol. f_equal.
  apply grid_of_ext. intros x y Hx Hy. by apply Hcells.
Qed.

Lemma abs_write st data size :
  term_inv st -> 0 <= size ->
  abs <$> terminal_write st data size = screen_write (abs st) data size.
Proof.
  intros Hinv Hs. unfold screen_write. case_bool_decide.
  - rewrite write_as_fold by lia. simpl. f_equal. by apply foldl_putchar_refines.
  - rewrite write_reads_past_end by lia. done.
Qed.

Lemma abs_writestring st data :
  term_inv st ->
  abs <$> terminal_writestring st data =
  (fun n => foldl put_char (abs st) (take n data)) <$> first_nul data.
Proof.
  intros Hinv. unfold terminal_writestring. rewrite strlen_reference.
  destruct (first_nul data) as [n|] eqn:Hn; simpl; [|done].
  apply first_nul_Some in Hn as [Hn _]. apply lookup_lt_Some in Hn.
  rewrite write_as_fold by lia. simpl. rewrite Nat2Z.id. f_equal.
  by apply foldl_putchar_refines.
Qed.

(** Every call, from a state satisfying the invariant, is the abstract
    call seen through [abs]: both are undefined or both return, with
    abstractly equal results. *)
Lemma api_exec_abs st call :
  term_inv st -> abs <$> api_exec st call = screen_exec (abs st) call.
Proof.
  intros Hinv. destruct call as [|color|c|data size|data]; simpl.
  - by rewrite abs_initialize.
  - done.
  - by rewrite putchar_refines_step.
  - apply abs_write; [done|]. apply size_t_range.
  - by apply abs_writestring.
Qed.

(** C12: every call of the interface, from a state satisfying the
    invariant, refines the abstract terminal: the memory model is
    undefined exactly when the abstract call is, and otherwise its
    result, read through [abs], is the abstract result. *)
Theorem api_exec_refines st call :
  term_inv st -> abs <$> api_exec st call = screen_exec (abs st) call.
Proof. apply api_exec_abs. Qed.

(** C13: the only undefined behaviour of the interface is a read past
    the caller's array: a call of the memory model is undefined exactly
    when [call_ub] holds (a [write] whose [length] exceeds its array, a
    [write_string] without a NUL); every other call returns, from any
    state. *)
Theorem api_exec_none st call : api_exec st call = None <-> call_ub call = true.
Proof.
  destruct call as [|color|c|data size|data]; simpl; try done.
  - pose proof (size_t_range size). rewrite bool_decide_eq_true.
    destruct (Z_lt_le_dec (Z.of_nat (length (schar <$> data))) (size_t_of size)) as [Hs|Hs].
    + rewrite length_fmap in Hs. rewrite write_reads_past_end by (by rewrite length_fmap). done.
    + rewrite length_fmap in Hs. rewrite write_as_fold by (rewrite length_fmap; lia). split; [done|lia].
  - unfold terminal_writestring. rewrite strlen_reference, bool_decide_eq_true, <- first_nul_None.
    destruct (first_nul (schar <$> data)) as [n|] eqn:Hn; simpl; [|done].
    apply first_nul_Some in Hn as [Hn _]. apply lookup_lt_Some in Hn.
    rewrite write_as_fold by lia. done.
Qed.

Lemma api_run_abs st calls :
  term_inv st -> abs <$> api_run st calls = screen_run (abs st) calls.
Proof.
  revert st. induction calls as [|call calls IH]; intros st Hinv; simpl; [done|].
  pose proof (api_exec_abs st call Hinv) as Hcall.
  destruct (api_exec st call) as [st'|] eqn:Hexec; simpl in Hcall; rewrite <- Hcall; simpl; [|done].
  apply IH. apply (api_step_inv st call); [done|]. by constructor.
Qed.

(** C4: after [terminal_initialize], from any state and memory before
    it, any sequence of calls of the interface is observed through [abs]
    as the same sequence run by the abstract terminal from the blank
    screen; in particular the memory model is undefined exactly when the
    abstract run is. *)
Theorem api_run_refines st0 calls :
  abs <$> api_run (terminal_initialize st0) calls = screen_run initial_screen calls.
Proof.
  rewrite api_run_abs by apply initialize_establishes_inv.
  by rewrite abs_initialize.
Qed.

End WithGeometry.

Lemma api_exec_refines_witness :
  let call := WriteString (c_string_literal [72; 105; 10]) in
  term_inv fresh /\ abs <$> api_exec fresh call = screen_exec (abs fresh) call.
Proof.
  intros call. assert (H : term_inv fresh) by decide_by_eval.
  split; [exact H|]. exact (api_exec_refines fresh call H).
Defined.

End Interface.
