(* ===== verification/Behaviour.v ===== *)
(** * The testable properties of the specification

    Section 8 of the specification lists behaviours of the writer.  This
    file proves them, for every geometry, about [terminal_putchar]
    folded over the characters (which is what [terminal_write] does, by
    [terminal_write_fold]): a run of characters within a line, a full
    line with its wrap, a run of newlines from the top row with exactly
    one scroll, and [terminal_setcolor] acting on later characters only.
    The newline run is generalised to a liveness property: from any
    valid state, the scroll is reached after [VGA_HEIGHT - terminal_row]
    newlines.
    The two scenarios of section 8 are then evaluated on the 80x25
    screen. *)

From Stdlib Require Import ZArith Lia.
From stdpp Require Import base gmap list.
From S2P Require Import Prelude CellCodec CString Buffer Terminal Scroll Writer.
Open Scope Z_scope.
Open Scope vga_scope.

Module Behaviour.
Import CellCodec.CellCodec CString.CString Buffer.Buffer Terminal.Terminal Scroll.Scroll Writer.Writer.

Section WithGeometry.
Context {geom : Geometry}.

(** The cells after writing the characters [cs] from the cursor on. *)
Definition cells_after_line (st : term) (cs : list Z) (x y : Z) : Z :=
  if decide (y = terminal_row st /\
             terminal_column st <= x < terminal_column st + Z.of_nat (length cs))
  then vga_entry (default 0 (cs !! Z.to_nat (x - terminal_column st))) (terminal_color st)
  else read_cell st x y.

(** Writing characters other than ['\n'] that fit on the current
    line puts each of them, in the current colour, in the cells from the
    cursor on, leaves every other cell unchanged, and moves the cursor
    right by their number. *)
Lemma putchar_line_spec st cs :
  term_inv st -> Forall (fun c => c <> NEWLINE) cs ->
  terminal_column st + Z.of_nat (length cs) < VGA_WIDTH ->
  let st' := foldl terminal_putchar st cs in
  terminal_row st' = terminal_row st /\
  terminal_column st' = terminal_column st + Z.of_nat (length cs) /\
  terminal_color st' = terminal_color st /\
  (forall x y, 0 <= x < VGA_WIDTH -> 0 <= y < VGA_HEIGHT -> read_cell st' x y = cells_after_line st cs x y).
Proof.
  revert st. induction cs as [|c cs IH]; intros st Hinv Hcs Hlen; cbn zeta.
  - simpl. repeat split; [lia|]. intros x y Hx Hy. unfold cells_after_line.
    rewrite decide_False by (simpl; lia). done.
  - apply Forall_cons in Hcs as [Hc Hcs]. simpl in Hlen |- *.
    destruct (putchar_char_inline_spec st c Hinv Hc ltac:(lia)) as (Hr & Hcol & Hco & Hcells).
    destruct (IH (terminal_putchar st c) (putchar_preserves_inv _ _ Hinv) Hcs ltac:(lia))
      as (Hr' & Hcol' & Hco' & Hcells').
    rewrite Hr', Hcol', Hco', Hr, Hcol, Hco. repeat split; [lia|].
    intros x y Hx Hy. rewrite Hcells' by done. unfold cells_after_line, cells_after_put in *.
    rewrite Hr, Hcol, Hco, Hcells by done. simpl.
    repeat case_decide; try lia; try done.
    + replace (Z.to_nat (x - terminal_column st)) with (S (Z.to_nat (x - (terminal_column st + 1))))
        by lia. done.
    + replace x with (terminal_column st) by lia. rewrite Z.sub_diag. done.
Qed.

(** C20: writing characters other than ['\n'] that fit on the current
    line puts each of them, in the current colour, in the cells from the
    cursor on, leaves every other cell unchanged, and moves the cursor
    right by their number. *)
Theorem foldl_putchar_line st cs :
  term_inv st -> Forall (fun c => c <> NEWLINE) cs ->
  terminal_column st + Z.of_nat (length cs) < VGA_WIDTH ->
  let st' := foldl terminal_putchar st cs in
  terminal_row st' = terminal_row st /\
  terminal_column st' = terminal_column st + Z.of_nat (length cs) /\
  terminal_color st' = terminal_color st /\
  (forall x y, 0 <= x < VGA_WIDTH -> 0 <= y < VGA_HEIGHT -> read_cell st' x y = cells_after_line st cs x y).
Proof. apply putchar_line_spec. Qed.

(** A full line is the first [VGA_WIDTH - 1] characters, written
    within the line, and the last one, written in the last column. *)
Lemma line_then_last st cs c :
  term_inv st -> Forall (fun c => c <> NEWLINE) cs -> Z.of_nat (length cs) = VGA_WIDTH - 1 ->
  terminal_column st = 0 ->
  let st0 := foldl terminal_putchar st cs in
  term_inv st0 /\ terminal_column st0 = VGA_WIDTH - 1 /\ terminal_row st0 = terminal_row st /\
  terminal_color st0 = terminal_color st /\
  (forall x y, 0 <= x < VGA_WIDTH -> 0 <= y < VGA_HEIGHT ->
     cells_after_put st0 c x y = cells_after_line st (cs ++ [c]) x y).
Proof.
  intros Hinv Hcs Hlen Hcol0. cbn zeta.
  destruct (putchar_line_spec st cs Hinv Hcs ltac:(lia)) as (Hr & Hcol & Hco & Hcells).
  split; [by apply foldl_putchar_inv|]. rewrite Hr, Hcol, Hco. repeat split; [lia|].
  intros x y Hx Hy. unfold cells_after_put. rewrite Hr, Hcol, Hco.
  unfold cells_after_line. rewrite length_app. simpl. rewrite Hcol0.
  case_decide as Hlast.
  - rewrite decide_True by lia. destruct Hlast as [-> ->].
    rewrite lookup_app_r by lia. replace (Z.to_nat _ - length cs)%nat with O by lia. done.
  - rewrite Hcells by done. unfold cells_after_line. rewrite Hcol0.
    repeat case_decide; try lia; try done. rewrite lookup_app_l by lia. done.
Qed.

(** Writing [VGA_WIDTH] characters other than ['\n'] from column 0
    of a row that is not the last fills the row with their encodings,
    leaves the other rows unchanged, and wraps the cursor to column 0 of
    the next row. *)
Lemma putchar_full_line_spec st line :
  term_inv st -> Forall (fun c => c <> NEWLINE) line -> Z.of_nat (length line) = VGA_WIDTH ->
  terminal_column st = 0 -> terminal_row st + 1 < VGA_HEIGHT ->
  let st' := foldl terminal_putchar st line in
  terminal_row st' = terminal_row st + 1 /\ terminal_column st' = 0 /\
  (forall x y, 0 <= x < VGA_WIDTH -> 0 <= y < VGA_HEIGHT -> read_cell st' x y = cells_after_line st line x y).
Proof.
  intros Hinv Hline Hlen Hcol0 Hrow. cbn zeta. pose proof VGA_WIDTH_pos.
  destruct (exists_last (l := line)) as [cs [c ->]]; [intros ->; simpl in Hlen; lia|].
  apply Forall_app in Hline as [Hcs Hc]. rewrite Forall_singleton in Hc.
  rewrite length_app in Hlen. simpl in Hlen.
  destruct (line_then_last st cs c Hinv Hcs ltac:(lia) Hcol0) as (Hinv0 & Hcol & Hr & Hco & Hcells).
  rewrite foldl_app. simpl.
  destruct (putchar_char_wrap_spec _ c Hinv0 Hc Hcol ltac:(lia)) as (Hr' & Hcol' & _ & Hcells').
  rewrite Hr', Hcol', Hr. repeat split. intros x y Hx Hy. rewrite Hcells', Hcells by done. done.
Qed.

(** C21: writing [VGA_WIDTH] characters other than ['\n'] from column 0
    of a row that is not the last fills the row with their encodings,
    leaves the other rows unchanged, and wraps the cursor to column 0 of
    the next row. *)
Theorem foldl_putchar_full_line st line :
  term_inv st -> Forall (fun c => c <> NEWLINE) line -> Z.of_nat (length line) = VGA_WIDTH ->
  terminal_column st = 0 -> terminal_row st + 1 < VGA_HEIGHT ->
  let st' := foldl terminal_putchar st line in
  terminal_row st' = terminal_row st + 1 /\ terminal_column st' = 0 /\
  (forall x y, 0 <= x < VGA_WIDTH -> 0 <= y < VGA_HEIGHT -> read_cell st' x y = cells_after_line st line x y).
Proof. apply putchar_full_line_spec. Qed.

(** C22: writing [VGA_WIDTH] characters other than ['\n'] from column 0
    of the last row scrolls once: the rows above move up, the written
    line is now on row [VGA_HEIGHT - 2], and it is also still on the
    last row, which the scroll does not clear. *)
Theorem foldl_putchar_full_last_line st line :
  term_inv st -> Forall (fun c => c <> NEWLINE) line -> Z.of_nat (length line) = VGA_WIDTH ->
  terminal_column st = 0 -> terminal_row st = VGA_HEIGHT - 1 -> 2 <= VGA_HEIGHT ->
  let st' := foldl terminal_putchar st line in
  let cell x := vga_entry (default 0 (line !! Z.to_nat x)) (terminal_color st) in
  terminal_row st' = VGA_HEIGHT - 1 /\ terminal_column st' = 0 /\
  (forall x y, 0 <= x < VGA_WIDTH -> 0 <= y < VGA_HEIGHT - 2 -> read_cell st' x y = read_cell st x (y + 1)) /\
  (forall x, 0 <= x < VGA_WIDTH ->
     read_cell st' x (VGA_HEIGHT - 2) = cell x /\ read_cell st' x (VGA_HEIGHT - 1) = cell x).
Proof.
  intros Hinv Hline Hlen Hcol0 Hrow HH. cbn zeta. pose proof VGA_WIDTH_pos.
  destruct (exists_last (l := line)) as [cs [c ->]]; [intros ->; simpl in Hlen; lia|].
  apply Forall_app in Hline as [Hcs Hc]. rewrite Forall_singleton in Hc.
  rewrite length_app in Hlen. simpl in Hlen.
  destruct (line_then_last st cs c Hinv Hcs ltac:(lia) Hcol0) as (Hinv0 & Hcol & Hr & Hco & Hcells).
  rewrite foldl_app. simpl. rewrite putchar_scroll_spec; [|exact Hinv0|lia|right; lia].
  rewrite (proj2 (Z.eqb_neq _ _) Hc).
  set (st1 := terminal_putentryat _ c _ _ _).
  assert (Hst1 : forall x y, 0 <= x < VGA_WIDTH -> 0 <= y < VGA_HEIGHT ->
            read_cell (set_column st1 0) x y = cells_after_line st (cs ++ [c]) x y).
  { intros x y Hx Hy. rewrite <- Hcells by done. by apply putentryat_at_cursor_cells. }
  destruct (scroll_newline_shift_spec (set_column st1 0)) as (Hr' & Hcol' & _ & _ & Hrows & _).
  split; [rewrite Hr'; simpl; lia|]. split; [done|]. split.
  - intros x y Hx Hy. rewrite Hrows, Hst1 by lia. unfold cells_after_line.
    rewrite decide_False by lia. done.
  - intros x Hx. rewrite scroll_newline_keeps_last_row by done.
    replace (VGA_HEIGHT - 2) with (VGA_HEIGHT - 1 - 1) by lia.
    rewrite Hrows, !Hst1 by lia. unfold cells_after_line.
    rewrite !decide_True by (rewrite ?length_app; simpl; lia). rewrite Hcol0, !Z.sub_0_r. done.
Qed.

(** Newlines above the last row: [j > 0] of them move the cursor down
    [j] rows to column 0 and write no memory. *)
Lemma newlines_down st j :
  term_inv st -> (0 < j)%nat -> terminal_row st + Z.of_nat j < VGA_HEIGHT ->
  foldl terminal_putchar st (replicate j NEWLINE) =
  set_column (set_row st (terminal_row st + Z.of_nat j)) 0.
Proof.
  intros Hinv. pose proof (inv_row _ Hinv). pose proof VGA_WIDTH_pos.
  induction j as [|j IH]; intros Hj Hrow; [lia|].
  rewrite replicate_S_end, foldl_app. cbn [foldl replicate].
  destruct j as [|j].
  - cbn [replicate foldl]. rewrite terminal_putchar_newline by done. simpl_cmp. do 2 f_equal; lia.
  - rewrite IH by lia. rewrite terminal_putchar_newline by (apply term_inv_set_cursor; [done|lia..]).
    cbn [terminal_row set_row set_column]. simpl_cmp. destruct st; unfold set_column, set_row; cbn in *. f_equal. lia.
Qed.

(** From every state satisfying the invariant, newlines reach the
    scroll: the newlines before the [VGA_HEIGHT - terminal_row]-th only
    move the cursor down and write no memory, and that one scrolls once,
    leaving the cursor at column 0 of the last row. *)
Lemma newlines_then_scroll st :
  term_inv st ->
  (forall j, Z.of_nat j < VGA_HEIGHT - terminal_row st ->
     term_mem (foldl terminal_putchar st (replicate j NEWLINE)) = term_mem st) /\
  foldl terminal_putchar st (replicate (Z.to_nat (VGA_HEIGHT - terminal_row st)) NEWLINE) =
  set_column (terminal_scroll_newline (set_row st (VGA_HEIGHT - 1))) 0.
Proof.
  intros Hinv. pose proof (inv_row _ Hinv). pose proof VGA_WIDTH_pos.
  replace (Z.to_nat (VGA_HEIGHT - terminal_row st)) with (S (Z.to_nat (VGA_HEIGHT - 1 - terminal_row st))) by lia.
  remember (Z.to_nat (VGA_HEIGHT - 1 - terminal_row st)) as k eqn:Hk. split.
  - intros [|j] Hj; [done|]. rewrite newlines_down by (done || lia). done.
  - rewrite replicate_S_end, foldl_app. cbn [foldl]. destruct k as [|k].
    + cbn [replicate foldl]. rewrite terminal_putchar_newline by done. simpl_cmp.
      replace (VGA_HEIGHT - 1) with (terminal_row st) by lia. by destruct st.
    + rewrite newlines_down by (done || lia).
      rewrite terminal_putchar_newline by (apply term_inv_set_cursor; [done|lia..]).
      cbn [terminal_row set_row set_column]. simpl_cmp.
      replace (terminal_row st + Z.of_nat (S k)) with (VGA_HEIGHT - 1) by lia. by destruct st.
Qed.

(** C24: liveness of the scroll: from every state satisfying the
    invariant, the newlines before the [VGA_HEIGHT - terminal_row]-th
    only move the cursor down and write no memory, and that newline
    scrolls the screen once, leaving the cursor at column 0 of the last
    row. *)
Theorem newlines_reach_scroll st :
  term_inv st ->
  (forall j, Z.of_nat j < VGA_HEIGHT - terminal_row st ->
     term_mem (foldl terminal_putchar st (replicate j NEWLINE)) = term_mem st) /\
  foldl terminal_putchar st (replicate (Z.to_nat (VGA_HEIGHT - terminal_row st)) NEWLINE) =
  set_column (terminal_scroll_newline (set_row st (VGA_HEIGHT - 1))) 0.
Proof. apply newlines_then_scroll. Qed.

(** C23: from the top-left corner, [k < VGA_HEIGHT] newlines only move
    the cursor down [k] rows (no memory is written), and the
    [VGA_HEIGHT]-th newline scrolls exactly once, leaving the cursor on
    the last row. *)
Theorem newlines_scroll_once st :
  term_inv st -> terminal_row st = 0 -> terminal_column st = 0 ->
  (forall k, Z.of_nat k < VGA_HEIGHT ->
     foldl terminal_putchar st (replicate k NEWLINE) = set_row st (Z.of_nat k)) /\
  foldl terminal_putchar st (replicate (Z.to_nat VGA_HEIGHT) NEWLINE) =
  terminal_scroll_newline (set_row st (VGA_HEIGHT - 1)).
Proof.
  intros Hinv Hr0 Hc0. pose proof VGA_HEIGHT_pos. split.
  - intros [|k] Hk; [destruct st; simpl in *; by subst|].
    rewrite newlines_down by (done || lia). rewrite Hr0. destruct st; simpl in *; by subst.
  - destruct (newlines_then_scroll st Hinv) as [_ Hs].
    rewrite Hr0, Z.sub_0_r in Hs. rewrite Hs. destruct st; simpl in *; by subst.
Qed.

(** C25: [terminal_setcolor] acts on later characters only: write [c1],
    change the colour, write [c2]; the cell of [c1] keeps the old colour
    and the cell of [c2] has the new one. *)
Theorem terminal_setcolor_future_only st c1 c2 color :
  term_inv st -> c1 <> NEWLINE -> c2 <> NEWLINE -> terminal_column st + 2 < VGA_WIDTH ->
  let st' := terminal_putchar (terminal_setcolor (terminal_putchar st c1) color) c2 in
  read_cell st' (terminal_column st) (terminal_row st) = vga_entry c1 (terminal_color st) /\
  read_cell st' (terminal_column st + 1) (terminal_row st) = vga_entry c2 (uint8 color).
Proof.
  intros Hinv Hc1 Hc2 Hcol. cbn zeta. pose proof (inv_row _ Hinv). pose proof (inv_column _ Hinv).
  destruct (putchar_char_inline_spec st c1 Hinv Hc1 ltac:(lia)) as (Hr1 & Hcol1 & _ & Hcells1).
  set (st1 := terminal_putchar st c1) in *.
  assert (Hinv2 : term_inv (terminal_setcolor st1 color))
    by (apply terminal_setcolor_inv, putchar_preserves_inv, Hinv).
  destruct (putchar_char_inline_spec _ c2 Hinv2 Hc2 ltac:(simpl; lia)) as (_ & _ & _ & Hcells2).
  rewrite !Hcells2 by lia. unfold cells_after_put. simpl. rewrite Hr1, Hcol1.
  split.
  - rewrite decide_False by lia. change (read_cell (terminal_setcolor st1 color)) with (read_cell st1).
    rewrite Hcells1 by lia. unfold cells_after_put. by rewrite decide_True.
  - by rewrite decide_True.
Qed.

End WithGeometry.

(** ** The theorems at concrete inputs, on the 80x25 screen *)

Lemma foldl_putchar_line_witness :
  (term_inv fresh /\ Forall (fun c => c <> NEWLINE) [72; 105] /\
   terminal_column fresh + Z.of_nat (length [72; 105]) < VGA_WIDTH) /\
  terminal_column (foldl terminal_putchar fresh [72; 105]) = 2.
Proof.
  assert (H1 : term_inv fresh) by decide_by_eval.
  assert (H2 : Forall (fun c => c <> NEWLINE) [72; 105]) by (repeat constructor; discriminate).
  assert (H3 : terminal_column fresh + Z.of_nat (length [72; 105]) < VGA_WIDTH)
    by (vm_compute; reflexivity).
  split; [done|]. rewrite (proj1 (proj2 (foldl_putchar_line fresh [72; 105] H1 H2 H3))).
  vm_compute. reflexivity.
Defined.

Lemma foldl_putchar_full_line_witness :
  (term_inv fresh /\ Forall (fun c => c <> NEWLINE) (replicate 80 65) /\
   Z.of_nat (length (replicate 80 65)) = VGA_WIDTH /\
   terminal_column fresh = 0 /\ terminal_row fresh + 1 < VGA_HEIGHT) /\
  terminal_row (foldl terminal_putchar fresh (replicate 80 65)) = 1.
Proof.
  assert (H1 : term_inv fresh) by decide_by_eval.
  assert (H2 : Forall (fun c => c <> NEWLINE) (replicate 80 65))
    by (apply Forall_replicate; discriminate).
  assert (H3 : Z.of_nat (length (replicate 80 65)) = VGA_WIDTH) by reflexivity.
  assert (H4 : terminal_column fresh = 0) by reflexivity.
  assert (H5 : terminal_row fresh + 1 < VGA_HEIGHT) by (vm_compute; reflexivity).
  split; [done|].
  rewrite (proj1 (foldl_putchar_full_line fresh (replicate 80 65) H1 H2 H3 H4 H5)).
  reflexivity.
Defined.

Lemma foldl_putchar_full_last_line_witness :
  let st := set_row fresh 24 in
  (term_inv st /\ Forall (fun c => c <> NEWLINE) (replicate 80 65) /\
   Z.of_nat (length (replicate 80 65)) = VGA_WIDTH /\ terminal_column st = 0 /\
   terminal_row st = VGA_HEIGHT - 1 /\ 2 <= VGA_HEIGHT) /\
  read_cell (foldl terminal_putchar st (replicate 80 65)) 0 24 = vga_entry 65 default_color.
Proof.
  intros st.
  assert (H1 : term_inv st) by decide_by_eval.
  assert (H2 : Forall (fun c => c <> NEWLINE) (replicate 80 65))
    by (apply Forall_replicate; discriminate).
  assert (H3 : Z.of_nat (length (replicate 80 65)) = VGA_WIDTH) by reflexivity.
  assert (H4 : terminal_column st = 0) by reflexivity.
  assert (H5 : terminal_row st = VGA_HEIGHT - 1) by reflexivity.
  assert (H6 : 2 <= VGA_HEIGHT) by (vm_compute; discriminate).
  split; [done|].
  destruct (proj2 (proj2 (proj2 (foldl_putchar_full_last_line st (replicate 80 65)
              H1 H2 H3 H4 H5 H6))) 0 ltac:(simpl; lia)) as [_ Hlast].
  exact Hlast.
Defined.

Lemma newlines_scroll_once_witness :
  (term_inv fresh /\ terminal_row fresh = 0 /\ terminal_column fresh = 0) /\
  foldl terminal_putchar fresh (replicate 25 NEWLINE) = terminal_scroll_newline (set_row fresh 24).
Proof.
  assert (H1 : term_inv fresh) by decide_by_eval.
  assert (H2 : terminal_row fresh = 0) by reflexivity.
  assert (H3 : terminal_column fresh = 0) by reflexivity.
  split; [done|]. exact (proj2 (newlines_scroll_once fresh H1 H2 H3)).
Defined.

Lemma newlines_reach_scroll_witness :
  let st := foldl terminal_putchar fresh (replicate 20 NEWLINE) in
  term_inv st /\
  foldl terminal_putchar st (replicate 5 NEWLINE) =
  set_column (terminal_scroll_newline (set_row st 24)) 0.
Proof.
  intros st. assert (H : term_inv st) by decide_by_eval.
  split; [exact H|].
  pose proof (proj2 (newlines_reach_scroll st H)) as Hs.
  replace (Z.to_nat (VGA_HEIGHT - terminal_row st)) with 5%nat in Hs by (vm_compute; reflexivity).
  exact Hs.
Defined.

Lemma terminal_setcolor_future_only_witness :
  (term_inv fresh /\ 65 <> NEWLINE /\ 66 <> NEWLINE /\ terminal_column fresh + 2 < VGA_WIDTH) /\
  read_cell (terminal_putchar (terminal_setcolor (terminal_putchar fresh 65) 31) 66) 0 0 =
  vga_entry 65 default_color.
Proof.
  assert (H1 : term_inv fresh) by decide_by_eval.
  assert (H2 : 65 <> NEWLINE) by discriminate.
  assert (H3 : 66 <> NEWLINE) by discriminate.
  assert (H4 : terminal_column fresh + 2 < VGA_WIDTH) by (vm_compute; reflexivity).
  split; [done|]. exact (proj1 (terminal_setcolor_future_only fresh 65 66 31 H1 H2 H3 H4)).
Defined.

(** ** The scenarios of section 8, on the 80x25 screen *)

(** C36: after [terminal_initialize] (from any state and any memory),
    [terminal_writestring("Hi\n")] leaves 'H' and 'i' in green on black
    in the cells (0,0) and (1,0), and the cursor at column 0 of row 1. *)
Theorem scenario_hi_newline st0 :
  let st := terminal_initialize st0 in
  exists st', terminal_writestring st (c_string_literal [72; 105; 10]) = Some st' /\
    read_cell st' 0 0 = vga_entry 72 default_color /\
    read_cell st' 1 0 = vga_entry 105 default_color /\
    terminal_column st' = 0 /\ terminal_row st' = 1.
Proof.
  cbn zeta. set (st := terminal_initialize st0).
  pose proof (initialize_establishes_inv st0) as Hinv. fold st in Hinv.
  destruct (initialize_fills_screen st0) as (Hr & Hc & Hcol & _ & _ & _). fold st in Hr, Hc, Hcol.
  destruct (putchar_line_spec st [72; 105] Hinv ltac:(repeat constructor; discriminate)
              ltac:(simpl; lia)) as (Hr1 & Hc1 & Hco1 & Hcells1).
  pose proof (foldl_putchar_inv st [72; 105] Hinv) as Hinv1.
  set (st2 := foldl terminal_putchar st [72; 105]) in *.
  assert (Hrow2 : terminal_row st2 + 1 < VGA_HEIGHT) by (rewrite Hr1, Hr; simpl; lia).
  destruct (putchar_newline_down_spec st2 Hinv1 Hrow2) as (Hr2 & Hc2 & _ & _).
  exists (terminal_putchar st2 NEWLINE).
  rewrite writestring_literal_fold by decide_by_eval. split; [reflexivity|].
  rewrite read_cell_newline_down by done.
  rewrite !Hcells1 by (simpl; lia). unfold cells_after_line. rewrite Hr, Hc, Hcol.
  rewrite !decide_True by (simpl; lia). rewrite Hr2, Hc2, Hr1, Hr. done.
Qed.

(** C37: after [terminal_initialize] (from any state), writing 81
    copies of 'A' with [terminal_write] wraps once: row 0 is full of 'A',
    the cell (0,1) holds 'A', and the cursor is at column 1 of row 1. *)
Theorem scenario_wrap_81 st0 :
  let st := terminal_initialize st0 in
  exists st', terminal_write st (replicate 81 65) 81 = Some st' /\
    terminal_column st' = 1 /\ terminal_row st' = 1 /\
    (forall x, 0 <= x < 80 -> read_cell st' x 0 = vga_entry 65 default_color) /\
    read_cell st' 0 1 = vga_entry 65 default_color.
Proof.
  cbn zeta. set (st := terminal_initialize st0).
  pose proof (initialize_establishes_inv st0) as Hinv. fold st in Hinv.
  destruct (initialize_fills_screen st0) as (Hr & Hc & Hcol & _ & _ & _). fold st in Hr, Hc, Hcol.
  assert (Hline : Forall (fun c => c <> NEWLINE) (replicate 80 65))
    by (apply Forall_replicate; discriminate).
  destruct (putchar_full_line_spec st (replicate 80 65) Hinv Hline
              ltac:(rewrite length_replicate; reflexivity) Hc ltac:(rewrite Hr; simpl; lia))
    as (Hr1 & Hc1 & Hcells1).
  pose proof (foldl_putchar_inv st (replicate 80 65) Hinv) as Hinv1.
  set (st80 := foldl terminal_putchar st (replicate 80 65)) in *.
  destruct (putchar_char_inline_spec st80 65 Hinv1 ltac:(discriminate) ltac:(rewrite Hc1; simpl; lia))
    as (Hr2 & Hc2 & Hco2 & Hcells2).
  exists (terminal_putchar st80 65).
  rewrite write_as_fold by (rewrite length_replicate; lia).
  replace (take (Z.to_nat 81) (replicate 81 65)) with (replicate 80 65 ++ [65]) by reflexivity.
  rewrite foldl_app. change (foldl terminal_putchar st (replicate 80 65)) with st80.
  change (foldl terminal_putchar st80 [65]) with (terminal_putchar st80 65).
  split; [reflexivity|]. rewrite Hr2, Hc2, Hr1, Hc1, Hr. repeat split.
  - intros x Hx. rewrite Hcells2 by (simpl; lia). unfold cells_after_put.
    rewrite decide_False by (rewrite Hr1, Hr; lia).
    rewrite Hcells1 by (simpl; lia). unfold cells_after_line. rewrite Hr, Hc, Hcol.
    rewrite decide_True by (rewrite length_replicate; lia).
    rewrite lookup_replicate_2 by lia. done.
  - rewrite Hcells2 by (simpl; lia). unfold cells_after_put.
    rewrite decide_True by (rewrite Hr1, Hc1, Hr; lia).
    unfold st80. by rewrite foldl_putchar_color, Hcol.
Qed.

End Behaviour.
