(* ===== verification/Kernel.v ===== *)
(** * The entry point: [time_delay] and [kernel_main]

    [time_delay] (src/kernel.c lines 156-162) is a busy loop; its model
    returns the number of iterations it spins, which is all it does.
    [kernel_main] (lines 164-177) initialises the terminal and writes two
    string literals repeatedly, calling [time_delay(1000)] after each;
    its model returns the final terminal state and the arguments of the
    [time_delay] calls in order, or [None] on undefined behaviour.

    The theorems:
    - the delay loop terminates after [(s * 100000) mod 2^32]
      iterations;
    - it spins the full [s * 100000] times exactly when [s < 42950];
    - [kernel_main] is one run of [terminal_putchar] over the characters
      of both loops ([kernel_main_fold]);
    - it runs to the end without undefined behaviour from any state,
      calls [time_delay(1000)] [VGA_HEIGHT + VGA_HEIGHT / 2] times and
      ends in a state satisfying the terminal invariant;
    - on the 80x25 screen, from any state before the call, the last row
      it leaves reads "Wrapping the screenorld!".  This is proved by
      carrying the run to the abstract screen of [Screen] and computing
      it there. *)

From Stdlib Require Import ZArith Lia String Ascii.
From stdpp Require Import base gmap list.
From S2P Require Import Prelude CellCodec CString Buffer Terminal Scroll Writer Screen Interface.
Open Scope Z_scope.
Open Scope vga_scope.

Module Kernel.
Import CellCodec.CellCodec CString.CString Buffer.Buffer Terminal.Terminal Scroll.Scroll Writer.Writer.
Import Screen.Screen Interface.Interface.

(** [time_delay(size_t s)]:
    [for (unsigned long i = 0; i < s * 100000; i++) ;].  The product is
    a [size_t], and so is the argument; the model counts the iterations. *)
Definition time_delay (s : Z) : Z :=
  let s := size_t_of s in
  c_for 0 (size_t_of (s * 100000)) (fun _ n => n + 1) 0.

(** The character codes of a text without escapes. *)
Definition codes (s : string) : list Z :=
  map (fun a => Z.of_nat (nat_of_ascii a)) (list_ascii_of_string s).

(** The characters of the literal
    ["MYOS KERNEL VER 0.0\nBUILD DATE 0416221428\n\nHello from kernel world!\n"]. *)
Definition BANNER_TEXT : list Z :=
  codes "MYOS KERNEL VER 0.0" ++ [NEWLINE] ++
  codes "BUILD DATE 0416221428" ++ [NEWLINE; NEWLINE] ++
  codes "Hello from kernel world!" ++ [NEWLINE].

(** The literal itself, with its NUL. *)
Definition MSG_BANNER : list Z := c_string_literal BANNER_TEXT.

(** The characters of ["Wrapping the screen\n"], and the literal. *)
Definition WRAP_TEXT : list Z := codes "Wrapping the screen" ++ [NEWLINE].
Definition MSG_WRAP : list Z := c_string_literal WRAP_TEXT.

Section WithGeometry.
Context {geom : Geometry}.

(** One iteration of either loop of [kernel_main]:
    [terminal_writestring(msg); time_delay(1000);]. *)
Definition write_and_wait (msg : list Z) (acc : option (term * list Z)) : option (term * list Z) :=
  acc ≫= fun '(st, delays) =>
  st ← terminal_writestring st msg;
  Some (st, delays ++ [1000]).

(** [kernel_main()]. *)
Definition kernel_main (st : term) : option (term * list Z) :=
  let st := terminal_initialize st in
  let acc := c_for 0 VGA_HEIGHT (fun _ acc => write_and_wait MSG_BANNER acc) (Some (st, [])) in
  c_for 0 (VGA_HEIGHT / 2) (fun _ acc => write_and_wait MSG_WRAP acc) acc.

(** The characters of row [y], as the adapter displays them. *)
Definition row_text (st : term) (y : Z) : list Z :=
  (fun x => cell_char (read_cell st x y)) <$> seqZ 0 VGA_WIDTH.

(** ** Lemmas *)

(** An iteration of [kernel_main] on a string literal. *)
Lemma write_and_wait_literal s st delays :
  0 ∉ s ->
  write_and_wait (c_string_literal s) (Some (st, delays)) =
  Some (foldl terminal_putchar st s, delays ++ [1000]).
Proof. intros Hs. unfold write_and_wait. simpl. by rewrite writestring_literal_fold. Qed.

(** A loop of [kernel_main] over a literal, [k] iterations: the
    characters of the literal written [k] times in a row, and [k]
    delays recorded. *)
Lemma write_and_wait_iter s k st delays :
  0 ∉ s -> 0 <= k ->
  c_for 0 k (fun _ acc => write_and_wait (c_string_literal s) acc) (Some (st, delays)) =
  Some (foldl terminal_putchar st (concat (replicate (Z.to_nat k) s)),
        delays ++ replicate (Z.to_nat k) 1000).
Proof.
  intros Hs Hk.
  apply (c_for_inv (fun k acc =>
    acc = Some (foldl terminal_putchar st (concat (replicate (Z.to_nat k) s)),
                delays ++ replicate (Z.to_nat k) 1000))); [lia| |].
  - simpl. by rewrite app_nil_r.
  - intros i acc Hi ->. rewrite write_and_wait_literal by done.
    replace (Z.to_nat (i + 1)) with (S (Z.to_nat i)) by lia.
    rewrite !replicate_S_end, concat_app, foldl_app, app_assoc. simpl. by rewrite app_nil_r.
Qed.

(** [kernel_main] is one run of [terminal_putchar] over everything it
    writes, after [terminal_initialize]. *)
Lemma kernel_main_fold st0 :
  kernel_main st0 =
  Some (foldl terminal_putchar (terminal_initialize st0)
          (concat (replicate (Z.to_nat VGA_HEIGHT) BANNER_TEXT) ++
           concat (replicate (Z.to_nat (VGA_HEIGHT / 2)) WRAP_TEXT)),
        replicate (Z.to_nat VGA_HEIGHT + Z.to_nat (VGA_HEIGHT / 2)) 1000).
Proof.
  pose proof VGA_HEIGHT_pos. unfold kernel_main, MSG_BANNER, MSG_WRAP. cbn zeta.
  rewrite write_and_wait_iter by (first [decide_by_eval | lia]).
  rewrite write_and_wait_iter by (first [decide_by_eval | apply Z.div_pos; lia]).
  by rewrite foldl_app, replicate_add.
Qed.

(** A row of the screen, read through the abstraction. *)
Lemma row_text_abs st y :
  0 <= y < VGA_HEIGHT -> row_text st y = cell_char <$> default [] (grid (abs st) !! Z.to_nat y).
Proof.
  intros Hy. cbn [abs grid]. rewrite grid_of_lookup, Z2Nat.id by lia. simpl_cmp. simpl.
  unfold row_text, row_of. by rewrite <- list_fmap_compose.
Qed.

(** C39: [time_delay(s)] terminates after exactly
    [(s * 100000) mod 2^32] iterations (with [s] taken as a [size_t]):
    the bound is computed in 32 bits. *)
Theorem time_delay_iterations s :
  time_delay s = size_t_of (size_t_of s * 100000) /\ 0 <= time_delay s < 2 ^ 32.
Proof.
  unfold time_delay. rewrite c_for_count. pose proof (size_t_range (size_t_of s * 100000)).
  split; lia.
Qed.

(** C40: the overflow threshold of the delay: for every 32-bit [s],
    [time_delay(s)] spins the full [s * 100000] iterations exactly when
    [s < 42950]; from [42950] on, [s * 100000] exceeds [2^32] and the
    delay is cut to its residue, so a longer requested delay can be a
    much shorter one. *)
Theorem time_delay_wraps s :
  0 <= s < 2 ^ 32 -> (time_delay s = s * 100000 <-> s < 42950).
Proof.
  intros Hs. unfold time_delay. rewrite c_for_count, Z.sub_0_r, (size_t_small s) by done.
  pose proof (size_t_range (s * 100000)). unfold size_t_of in *. split.
  - intros Heq. destruct (Z_lt_le_dec s 42950) as [|Hge]; [done|]. lia.
  - intros Hlt. rewrite Z.mod_small by lia. lia.
Qed.

(** C38: [kernel_main] runs to its end without undefined behaviour (both
    literals are terminated, so no read goes past them), from any state
    and memory: it calls [time_delay(1000)] [VGA_HEIGHT + VGA_HEIGHT / 2]
    times and ends in a state satisfying the terminal invariant. *)
Theorem kernel_main_completes st0 :
  exists st, kernel_main st0 =
             Some (st, replicate (Z.to_nat VGA_HEIGHT + Z.to_nat (VGA_HEIGHT / 2)) 1000) /\
             term_inv st.
Proof.
  rewrite kernel_main_fold. eexists. split; [reflexivity|].
  apply foldl_putchar_inv, initialize_establishes_inv.
Qed.

End WithGeometry.

(** C18: on the 80x25 screen, from any state and memory before the
    call, the last row at the end of [kernel_main] reads "Wrapping the
    screenorld!": the tail of "Hello from kernel world!" written on that
    row before the wrap messages was never cleared, since scrolling does
    not blank the last row and [terminal_putchar] only overwrites the
    cells it writes.  The memory model is carried to the abstract screen
    (which no longer depends on the state before the call), where the
    run is computed. *)
Theorem kernel_main_stale_text st0 :
  exists st delays, kernel_main st0 = Some (st, delays) /\
    row_text st 24 = codes "Wrapping the screenorld!" ++ replicate 56 32.
Proof.
  rewrite kernel_main_fold. do 2 eexists. split; [reflexivity|].
  rewrite row_text_abs by (change VGA_HEIGHT with 25; lia).
  rewrite foldl_putchar_refines by apply initialize_establishes_inv.
  rewrite abs_initialize. vm_compute. reflexivity.
Qed.

Lemma time_delay_wraps_witness :
  0 <= 42950 < 2 ^ 32 /\ ~ (time_delay 42950 = 42950 * 100000).
Proof.
  assert (H : 0 <= 42950 < 2 ^ 32) by lia. split; [exact H|].
  rewrite (time_delay_wraps 42950 H). lia.
Defined.

End Kernel.
